(** * PorkBunDDNS: a shallow embedding of the dynamic DNS updater

    The development follows the three source files:
    - [src/porkbunddns/ipify.py]   (module [ipify]):   the public IP lookup client;
    - [src/porkbunddns/porkbun.py] (module [porkbun]): the DNS provider client;
    - [src/updater.py]             (module [updater]): the reconciliation script.

    The libraries the program calls ([requests], [pydantic], the builtins
    [int] and [str], [concurrent.futures]) are modelled by the small layers
    that come first.  Debug logging is left out: [logger.debug] formats two
    values that are always present and has no influence on control flow. *)

From Stdlib Require Import ZArith String Ascii List DecimalString DecimalPos DecimalZ
  DecimalFacts Lia.
From stdpp Require Import base option gmap strings list.

Set Warnings "-register-all".
Open Scope Z_scope.

(** ** Python builtins: [str] and [int] on integers *)

Module builtins.

(** The interpreter's limit on the number of digits in a conversion between
    [int] and [str] ([sys.int_info.default_max_str_digits]). *)
Definition max_str_digits : Z := 4300.

(** The decimal numeral of an integer: a leading minus sign for a negative
    number, no leading zero. *)
Definition decimal (n : Z) : string := NilZero.string_of_int (Z.to_int n).

(** [str(n)] for an [int]: its decimal numeral; [None] stands for the
    [ValueError] raised when the numeral would have more than
    [max_str_digits] digits. *)
Definition str (n : Z) : option string :=
  if Z.abs n <? 10 ^ max_str_digits then Some (decimal n) else None.

(** The integers that [str] prints. *)
Definition printable (n : Z) : Prop := Z.abs n < 10 ^ max_str_digits.

(** The characters [int] skips around a numeral: the codes 9-13 and 32. *)
Definition is_space (a : ascii) : bool :=
  let c := Z.of_nat (nat_of_ascii a) in
  ((9 <=? c) && (c <=? 13)) || (c =? 32).

Definition digit_value (a : ascii) : option Z :=
  let c := Z.of_nat (nat_of_ascii a) in
  if (48 <=? c) && (c <=? 57) then Some (c - 48) else None.

Definition is_underscore (a : ascii) : bool := Ascii.eqb a "_".

Fixpoint lstrip (s : string) : string :=
  match s with
  | String a rest => if is_space a then lstrip rest else s
  | EmptyString => EmptyString
  end.

Fixpoint all_space (s : string) : bool :=
  match s with
  | String a rest => is_space a && all_space rest
  | EmptyString => true
  end.

(** The digit scan of base 10: digits are accumulated left to right and
    counted; one underscore may separate two digits; the scan stops at the
    first character that is neither, and fails when it stops right after
    an underscore.  [prev] tells whether the previous character was an
    underscore.  The result is the value, the number of digits and the
    unread rest. *)
Fixpoint scan_digits (s : string) (prev : bool) (acc count : Z)
    : option (Z * Z * string) :=
  match s with
  | EmptyString => if prev then None else Some (acc, count, EmptyString)
  | String a rest =>
      match digit_value a with
      | Some d => scan_digits rest false (10 * acc + d) (count + 1)
      | None =>
          if is_underscore a
          then (if prev then None else scan_digits rest true acc count)
          else (if prev then None else Some (acc, count, s))
      end
  end.

(** The numeral proper: it starts with a digit (never with an underscore,
    and it is never empty), has at most [max_str_digits] digits, leading
    zeros counted, and only blanks may follow it. *)
Definition parse_magnitude (s : string) : option Z :=
  match s with
  | String a rest =>
      match digit_value a with
      | Some d =>
          match scan_digits rest false d 1 with
          | Some (n, count, tail) =>
              if (count <=? max_str_digits) && all_space tail then Some n else None
          | None => None
          end
      | None => None
      end
  | EmptyString => None
  end.

(** [int(s)], base 10, for a text of ASCII characters: blanks, an optional
    sign, the numeral, blanks.  [None] stands for [ValueError]. *)
Definition int_ascii (s : string) : option Z :=
  match lstrip s with
  | String "+" rest => parse_magnitude rest
  | String "-" rest => Z.opp <$> parse_magnitude rest
  | t => parse_magnitude t
  end.

Fixpoint ascii_text (s : string) : bool :=
  match s with
  | String a rest => (Z.of_nat (nat_of_ascii a) <? 128) && ascii_text rest
  | EmptyString => true
  end.

(** A text with a character beyond ASCII is first rewritten by the
    interpreter: the blanks of its Unicode tables become spaces, the
    decimal digits of other scripts become the ASCII digits of the same
    value, and any other character beyond ASCII becomes one that no
    numeral contains.  The tables belong to the interpreter at hand, not
    to the program: the rewriting is a parameter of the development. *)
Class UnicodeTables : Type := to_ascii : string → string.

(** [int(s)] for a [str], base 10. *)
Definition int `{UnicodeTables} (s : string) : option Z :=
  int_ascii (if ascii_text s then s else to_ascii s).

End builtins.

(** ** JSON documents

    A response body and the [json=] argument of a request are represented by
    the JSON document they encode.  An object is a finite map, as the [dict]
    the decoder builds. *)

Inductive json : Type :=
  | JNull
  | JBool (b : bool)
  | JNum (literal : string)
  | JStr (s : string)
  | JArr (items : list json)
  | JObj (fields : gmap string json).

(** ** Exceptions and results *)

Inductive Exception : Type :=
  | ConnectionError            (* requests: the request could not be sent *)
  | Timeout                    (* requests: no answer within the timeout  *)
  | HTTPError (status_code : Z) (* requests: raise_for_status              *)
  | ValidationError            (* pydantic: the body does not fit the model *)
  | IndexError                 (* builtin: list index out of range        *)
  | ValueError.                (* builtin: int() of a malformed literal   *)

Inductive Result (A : Type) : Type :=
  | Ok (a : A)
  | Raise (e : Exception).
Arguments Ok {A} a.
Arguments Raise {A} e.

Definition result_bind {A B} (r : Result A) (k : A → Result B) : Result B :=
  match r with
  | Ok a => k a
  | Raise e => Raise e
  end.

#[global] Instance result_ret : MRet Result := λ A, @Ok A.
#[global] Instance result_mbind : MBind Result := λ A B k r, result_bind r k.

Fixpoint result_map_list {A B} (f : A → Result B) (l : list A) : Result (list B) :=
  match l with
  | [] => Ok []
  | x :: rest =>
      y ← f x; ys ← result_map_list f rest; Ok (y :: ys)
  end.

Definition is_ok {A} (r : Result A) : bool :=
  match r with Ok _ => true | Raise _ => false end.

(** ** The [requests] layer

    A request is what the program hands to [requests.get] or
    [requests.post].  The network is an oracle: given the requests already
    sent and the new one, it either fails at transport level or answers with
    a status code and a body.  The body is the JSON document it decodes to,
    [None] when the bytes are not JSON at all.  The oracle stands for a
    call that [requests] carries out: a call it refuses before sending (a
    timeout that is not positive) is not represented. *)

Inductive Method : Type := GET | POST.

Record Request : Type := mkRequest {
  req_method : Method;
  req_url : string;
  req_timeout : Z;
  req_json : option json;
}.

Record Response : Type := mkResponse {
  status_code : Z;
  content : option json;
}.

Inductive TransportFailure : Type := ConnectionFailed | TimedOut.

Inductive Reply : Type :=
  | NoReply (f : TransportFailure)
  | Replied (r : Response).

Definition Network : Type := list Request → Request → Reply.

Definition transport_exception (f : TransportFailure) : Exception :=
  match f with
  | ConnectionFailed => ConnectionError
  | TimedOut => Timeout
  end.

(** ** Computations

    A method of a client object reads the network, may change the object it
    is called on ([self], of type [S]), appends to the list of requests sent
    so far, and returns or raises. *)

Record Outcome (S A : Type) : Type := mkOutcome {
  result : Result A;
  self_after : S;
  sent_after : list Request;
}.
Arguments mkOutcome {S A} _ _ _.
Arguments result {S A} _.
Arguments self_after {S A} _.
Arguments sent_after {S A} _.

Definition Exec (S A : Type) : Type := Network → S → list Request → Outcome S A.

Definition ret {S A} (a : A) : Exec S A :=
  λ _ self sent, mkOutcome (Ok a) self sent.

Definition raise {S A} (e : Exception) : Exec S A :=
  λ _ self sent, mkOutcome (Raise e) self sent.

Definition bind {S A B} (m : Exec S A) (k : A → Exec S B) : Exec S B :=
  λ net self sent,
    let o := m net self sent in
    match result o with
    | Ok a => k a net (self_after o) (sent_after o)
    | Raise e => mkOutcome (Raise e) (self_after o) (sent_after o)
    end.

#[global] Instance exec_ret {S} : MRet (Exec S) := λ A, @ret S A.
#[global] Instance exec_bind {S} : MBind (Exec S) := λ A B k m, bind m k.

(** [self.attr] *)
Definition attr {S A} (proj : S → A) : Exec S A :=
  λ _ self sent, mkOutcome (Ok (proj self)) self sent.

(** [self.attr = v] *)
Definition set_self {S} (upd : S → S) : Exec S unit :=
  λ _ self sent, mkOutcome (Ok tt) (upd self) sent.

(** A pure step that may raise. *)
Definition lift {S A} (r : Result A) : Exec S A :=
  λ _ self sent, mkOutcome r self sent.

(** Sending a request: it is recorded as sent, whatever the network does. *)
Definition send {S} (rq : Request) : Exec S Response :=
  λ net self sent,
    match net sent rq with
    | NoReply f => mkOutcome (Raise (transport_exception f)) self (sent ++ [rq])
    | Replied r => mkOutcome (Ok r) self (sent ++ [rq])
    end.

Module requests.

(** [requests.get(url=..., timeout=...)] *)
Definition get {S} (url : string) (timeout : Z) : Exec S Response :=
  send (mkRequest GET url timeout None).

(** [requests.post(url=..., timeout=..., json=...)] *)
Definition post {S} (url : string) (timeout : Z) (body : json) : Exec S Response :=
  send (mkRequest POST url timeout (Some body)).

(** [response.raise_for_status()]: client errors (4xx) and server errors
    (5xx) raise, every other status passes. *)
Definition raise_for_status {S} (response : Response) : Exec S unit :=
  if (400 <=? status_code response) && (status_code response <? 600)
  then raise (HTTPError (status_code response))
  else ret tt.

End requests.

(** ** The [pydantic] layer

    Validation of a JSON document against a model, in the default (lax,
    extra fields ignored) configuration.  Every mismatch is the one
    exception [ValidationError]. *)

Module pydantic.

(** A field annotated [str]: present and a JSON string. *)
Definition str_field (v : option json) : Result string :=
  match v with
  | Some (JStr s) => Ok s
  | _ => Raise ValidationError
  end.

(** A field annotated [typing.Literal[lit]]. *)
Definition literal_field (lit : string) (v : option json) : Result string :=
  match v with
  | Some (JStr s) => if String.eqb s lit then Ok s else Raise ValidationError
  | _ => Raise ValidationError
  end.

(** A field annotated [typing.List[M]], [item] validating [M]. *)
Definition list_field {A} (item : json → Result A) (v : option json) : Result (list A) :=
  match v with
  | Some (JArr items) => result_map_list item items
  | _ => Raise ValidationError
  end.

(** What a class body binds a name to, as far as validators go.
    [pydantic.validator(field)] applied to a function gives a descriptor
    proxy that carries the function and the field; [classmethod] applied
    to anything gives a [classmethod] object around it. *)
Inductive ClassAttr (V : Type) : Type :=
  | Function (f : V → Result V)
  | PydanticDescriptorProxy (field : string) (f : V → Result V)
  | ClassMethod (wrapped : ClassAttr V).
Arguments Function {V} f.
Arguments PydanticDescriptorProxy {V} field f.
Arguments ClassMethod {V} wrapped.

Definition validator {V} (field : string) (f : V → Result V) : ClassAttr V :=
  PydanticDescriptorProxy field f.

Definition classmethod {V} (x : ClassAttr V) : ClassAttr V := ClassMethod x.

(** When the model class is created, its namespace is scanned and the
    values that are descriptor proxies are registered as validators of
    their field.  A value of another kind is left alone, also when a proxy
    sits inside it. *)
Fixpoint field_validators {V} (namespace : list (string * ClassAttr V))
    (field : string) : list (V → Result V) :=
  match namespace with
  | [] => []
  | (_, PydanticDescriptorProxy fld f) :: rest =>
      if String.eqb fld field then f :: field_validators rest field
      else field_validators rest field
  | _ :: rest => field_validators rest field
  end.

(** The registered validators of a field run after the field's own type
    validation; what one raises surfaces as [ValidationError]. *)
Fixpoint run_validators {V} (vs : list (V → Result V)) (v : V) : Result V :=
  match vs with
  | [] => Ok v
  | f :: rest =>
      match f v with
      | Ok v' => run_validators rest v'
      | Raise _ => Raise ValidationError
      end
  end.

End pydantic.

(** A method call on an object held in a variable of the caller: the
    method runs on that object, and the variable sees what the method did
    to it. *)
Definition call {S T A} (get : S → T) (set : T → S → S) (m : Exec T A) : Exec S A :=
  λ net self sent,
    let o := m net (get self) sent in
    mkOutcome (result o) (set (self_after o) self) (sent_after o).

(** ** [concurrent.futures] with two workers and two tasks

    Each of the two tasks submitted by the script sends one request and
    then computes on its own data, so that a run of the pool is determined
    by which task reaches the network first. *)

Module concurrent_futures.

Inductive Schedule : Type := FirstSubmittedFirst | SecondSubmittedFirst.

(** A task running in a worker: what it returns or raises is stored in
    its future; nothing is raised in the submitting thread. *)
Definition run_task {S A} (task : Exec S A) : Exec S (Result A) :=
  λ net self sent,
    let o := task net self sent in
    mkOutcome (Ok (result o)) (self_after o) (sent_after o).

(** [future.result()]: returns the stored value or raises the stored
    exception. *)
Definition future_result {S A} (future : Result A) : Exec S A := lift future.

(** Two tasks submitted to a pool of two workers; leaving the [with]
    block waits for both, so both have run when the pair of futures is
    looked at, in either order of arrival. *)
Definition submit_two {S A B} (schedule : Schedule)
    (task1 : Exec S A) (task2 : Exec S B) : Exec S (Result A * Result B) :=
  match schedule with
  | FirstSubmittedFirst =>
      f1 ← run_task task1; f2 ← run_task task2; mret (f1, f2)
  | SecondSubmittedFirst =>
      f2 ← run_task task2; f1 ← run_task task1; mret (f1, f2)
  end.

End concurrent_futures.

(** ** [porkbunddns/ipify.py] *)

Module ipify.

Module IPifyResponseModel.
Record t : Type := mk { ip : string }.

Definition model_validate_json (content : option json) : Result t :=
  match content with
  | Some (JObj fields) =>
      ip ← pydantic.str_field (fields !! "ip"); Ok (mk ip)
  | _ => Raise ValidationError
  end.
End IPifyResponseModel.

Module IP.
Record t : Type := mk { ip : string }.
End IP.

Module IPify.
Record t : Type := mk { timeout : Z }.

Definition _IPIFY_API_ENDPOINT : string := "https://api.ipify.org/?format=json".

(** [verbose] only sets the level of the module's logger. *)
Definition __init__ (timeout : option Z) (verbose : option bool) : t :=
  mk (default 10 timeout).

Definition get_current_ip : Exec t IP.t :=
  timeout ← attr timeout;
  response ← requests.get _IPIFY_API_ENDPOINT timeout;
  requests.raise_for_status response;;
  parsed ← lift (IPifyResponseModel.model_validate_json (content response));
  mret (IP.mk (IPifyResponseModel.ip parsed)).
End IPify.

End ipify.

(** ** [porkbunddns/porkbun.py] *)

Module porkbun.

Module DNSARecordModel.
Record t : Type := mk {
  name : string;
  type : string;
  content : string;
  ttl : string;
}.

Definition validate (j : json) : Result t :=
  match j with
  | JObj fields =>
      name ← pydantic.str_field (fields !! "name");
      type ← pydantic.literal_field "A" (fields !! "type");
      content ← pydantic.str_field (fields !! "content");
      ttl ← pydantic.str_field (fields !! "ttl");
      Ok (mk name type content ttl)
  | _ => Raise ValidationError
  end.
End DNSARecordModel.

Module DNSARecordResponseModel.
Record t : Type := mk {
  status : string;
  records : list DNSARecordModel.t;
}.

(** The body of [check_records_length]. *)
Definition check_records_length (v : list DNSARecordModel.t)
    : Result (list DNSARecordModel.t) :=
  if negb (Nat.eqb (length v) 1) then Raise ValueError else Ok v.

(** The class body binds the name to [classmethod] applied to the
    result of [pydantic.validator("records")]: decorators apply from
    the innermost (written last) outwards. *)
Definition namespace : list (string * pydantic.ClassAttr (list DNSARecordModel.t)) :=
  [ ("check_records_length",
     pydantic.classmethod (pydantic.validator "records" check_records_length)) ].

Definition model_validate_json (content : option json) : Result t :=
  match content with
  | Some (JObj fields) =>
      status ← pydantic.literal_field "SUCCESS" (fields !! "status");
      records ← pydantic.list_field DNSARecordModel.validate (fields !! "records");
      records ← pydantic.run_validators
                  (pydantic.field_validators namespace "records") records;
      Ok (mk status records)
  | _ => Raise ValidationError
  end.

(** The property [record]: [self.records[0]]. *)
Definition record (self : t) : Result DNSARecordModel.t :=
  match records self !! 0%nat with
  | Some r => Ok r
  | None => Raise IndexError
  end.
End DNSARecordResponseModel.

Module ARecord.
Record t : Type := mk { ip : string; ttl : Z }.
End ARecord.

Module PorkBun.
Record t : Type := mk {
  timeout : Z;
  api_key : string;
  api_secret : string;
}.

(** The two URL templates, [{domain}] filled in. *)
Definition _PORKBUN_API_GET_ENDPOINT (domain : string) : string :=
  "https://porkbun.com/api/json/v3/dns/retrieveByNameType/" +:+ domain +:+ "/A/".
Definition _PORKBUN_API_EDIT_ENDPOINT (domain : string) : string :=
  "https://porkbun.com/api/json/v3/dns/editByNameType/" +:+ domain +:+ "/A/".

(** [verbose] only sets the level of the module's logger. *)
Definition __init__ (api_key api_secret : string) (timeout : option Z)
    (verbose : option bool) : t :=
  mk (default 10 timeout) api_key api_secret.

Definition get_a_record `{builtins.UnicodeTables} (domain : string) : Exec t ARecord.t :=
  timeout ← attr timeout;
  api_secret ← attr api_secret;
  api_key ← attr api_key;
  response ← requests.post (_PORKBUN_API_GET_ENDPOINT domain) timeout
               (JObj {[ "secretapikey" := JStr api_secret;
                        "apikey" := JStr api_key ]});
  requests.raise_for_status response;;
  parsed ← lift (DNSARecordResponseModel.model_validate_json (content response));
  first ← lift (DNSARecordResponseModel.record parsed);
  ttl ← lift (match builtins.int (DNSARecordModel.ttl first) with
              | Some n => Ok n
              | None => Raise ValueError
              end);
  mret (ARecord.mk (DNSARecordModel.content first) ttl).

Definition update_a_record (domain ip : string) (ttl : option Z) : Exec t unit :=
  timeout ← attr timeout;
  api_secret ← attr api_secret;
  api_key ← attr api_key;
  ttl_text ← lift (match builtins.str (default 600 ttl) with
                   | Some text => Ok text
                   | None => Raise ValueError
                   end);
  response ← requests.post (_PORKBUN_API_EDIT_ENDPOINT domain) timeout
               (JObj {[ "secretapikey" := JStr api_secret;
                        "apikey" := JStr api_key;
                        "content" := JStr ip;
                        "ttl" := JStr ttl_text ]});
  requests.raise_for_status response.
End PorkBun.

End porkbun.

(** ** [updater.py] *)

Module updater.
Import concurrent_futures.

(** The command line after it has been split into the three positional
    arguments and the options; an option that is absent is [None]. *)
Record CommandLine : Type := mkCommandLine {
  cl_domain : string;
  cl_api_key : string;
  cl_api_secret : string;
  cl_ttl : option string;
  cl_timeout : option string;
  cl_verbose : bool;
}.

(** The namespace [parser.parse_args()] returns. *)
Record Args : Type := mkArgs {
  domain : string;
  api_key : string;
  api_secret : string;
  ttl : Z;
  timeout : Z;
  verbose : bool;
}.

(** An option with [type=int] and a default: the default when absent,
    else [int] of the text; [None] when [int] rejects it (the parser
    reports the error and the process exits). *)
Definition int_option `{builtins.UnicodeTables} (dflt : Z) (text : option string)
    : option Z :=
  match text with
  | None => Some dflt
  | Some s => builtins.int s
  end.

Definition parse_args `{builtins.UnicodeTables} (argv : CommandLine) : option Args :=
  ttl ← int_option 600 (cl_ttl argv);
  timeout ← int_option 10 (cl_timeout argv);
  Some (mkArgs (cl_domain argv) (cl_api_key argv) (cl_api_secret argv)
               ttl timeout (cl_verbose argv)).

(** The two module-level client objects. *)
Record Globals : Type := mkGlobals {
  ipify_connector : ipify.IPify.t;
  porkbun_connector : porkbun.PorkBun.t;
}.

Definition set_ipify_connector (c : ipify.IPify.t) (g : Globals) : Globals :=
  mkGlobals c (porkbun_connector g).
Definition set_porkbun_connector (c : porkbun.PorkBun.t) (g : Globals) : Globals :=
  mkGlobals (ipify_connector g) c.

Definition on_ipify {A} (m : Exec ipify.IPify.t A) : Exec Globals A :=
  call ipify_connector set_ipify_connector m.
Definition on_porkbun {A} (m : Exec porkbun.PorkBun.t A) : Exec Globals A :=
  call porkbun_connector set_porkbun_connector m.

Definition connectors (args : Args) : Globals :=
  mkGlobals
    (ipify.IPify.__init__ (Some (timeout args)) (Some (verbose args)))
    (porkbun.PorkBun.__init__ (api_key args) (api_secret args)
       (Some (timeout args)) (Some (verbose args))).

(** The [with] block: both reads are submitted, and both futures are
    complete when the block is left. *)
Definition reads `{builtins.UnicodeTables} (args : Args) (schedule : Schedule)
    : Exec Globals (Result porkbun.ARecord.t * Result ipify.IP.t) :=
  submit_two schedule
    (on_porkbun (porkbun.PorkBun.get_a_record (domain args)))
    (on_ipify ipify.IPify.get_current_ip).

(** What follows the submissions: the two [result()] calls, the
    comparison and the update. *)
Definition compare_and_update (args : Args)
    (futures : Result porkbun.ARecord.t * Result ipify.IP.t) : Exec Globals unit :=
  record ← future_result (fst futures);
  current ← future_result (snd futures);
  if negb (String.eqb (ipify.IP.ip current) (porkbun.ARecord.ip record))
  then on_porkbun (porkbun.PorkBun.update_a_record
                     (domain args) (ipify.IP.ip current) (Some (ttl args)))
  else mret tt.

(** One reconciliation pass. *)
Definition reconcile `{builtins.UnicodeTables} (args : Args) (schedule : Schedule)
    : Exec Globals unit :=
  futures ← reads args schedule;
  compare_and_update args futures.

(** The whole script; [None] when the command line is rejected. *)
Definition main `{builtins.UnicodeTables} (argv : CommandLine) (schedule : Schedule)
    (net : Network)
    : option (Outcome Globals unit) :=
  args ← parse_args argv;
  Some (reconcile args schedule net (connectors args) []).

(** The requests of a run that go to the provider's edit endpoint. *)
Definition is_update_call (rq : Request) : bool :=
  match req_method rq with
  | POST => String.prefix "https://porkbun.com/api/json/v3/dns/editByNameType/" (req_url rq)
  | GET => false
  end.

Definition update_calls (sent : list Request) : list Request :=
  List.filter is_update_call sent.

End updater.

(** ** Auxiliary: the value of a digit sequence *)

(** The value of a sequence of decimal digits read from the left with
    [acc] already accumulated. *)
Fixpoint uint_value (d : Decimal.uint) (acc : Z) : Z :=
  match d with
  | Decimal.Nil => acc
  | Decimal.D0 l => uint_value l (10 * acc + 0)
  | Decimal.D1 l => uint_value l (10 * acc + 1)
  | Decimal.D2 l => uint_value l (10 * acc + 2)
  | Decimal.D3 l => uint_value l (10 * acc + 3)
  | Decimal.D4 l => uint_value l (10 * acc + 4)
  | Decimal.D5 l => uint_value l (10 * acc + 5)
  | Decimal.D6 l => uint_value l (10 * acc + 6)
  | Decimal.D7 l => uint_value l (10 * acc + 7)
  | Decimal.D8 l => uint_value l (10 * acc + 8)
  | Decimal.D9 l => uint_value l (10 * acc + 9)
  end.

(** ** Auxiliary: the three requests the clients build *)

Definition lookup_request (self : ipify.IPify.t) : Request :=
  mkRequest GET ipify.IPify._IPIFY_API_ENDPOINT (ipify.IPify.timeout self) None.

Definition retrieve_request (self : porkbun.PorkBun.t) (domain : string) : Request :=
  mkRequest POST (porkbun.PorkBun._PORKBUN_API_GET_ENDPOINT domain)
    (porkbun.PorkBun.timeout self)
    (Some (JObj {[ "secretapikey" := JStr (porkbun.PorkBun.api_secret self);
                   "apikey" := JStr (porkbun.PorkBun.api_key self) ]})).

Definition edit_request (self : porkbun.PorkBun.t) (domain ip : string) (ttl : Z) : Request :=
  mkRequest POST (porkbun.PorkBun._PORKBUN_API_EDIT_ENDPOINT domain)
    (porkbun.PorkBun.timeout self)
    (Some (JObj {[ "secretapikey" := JStr (porkbun.PorkBun.api_secret self);
                   "apikey" := JStr (porkbun.PorkBun.api_key self);
                   "content" := JStr ip;
                   "ttl" := JStr (builtins.decimal ttl) ]})).

(** The pure part of [get_a_record]: from the validated body to the
    record. *)
Definition a_record_of `{builtins.UnicodeTables}
    (parsed : porkbun.DNSARecordResponseModel.t) : Result porkbun.ARecord.t :=
  match porkbun.DNSARecordResponseModel.record parsed with
  | Ok first =>
      match builtins.int (porkbun.DNSARecordModel.ttl first) with
      | Some n => Ok (porkbun.ARecord.mk (porkbun.DNSARecordModel.content first) n)
      | None => Raise ValueError
      end
  | Raise e => Raise e
  end.

(** A status code on which [raise_for_status] raises. *)
Definition http_failure (code : Z) : bool := (400 <=? code) && (code <? 600).

(** A field of the JSON object a request carries. *)
Definition request_field (rq : Request) (key : string) : option json :=
  match req_json rq with
  | Some (JObj body) => body !! key
  | _ => None
  end.


(** A network whose answer to a request does not depend on what was sent
    before it. *)
Definition stateless (net : Network) : Prop := ∀ history rq, net history rq = net [] rq.

(** The two read requests of a pass, in the order the schedule sends
    them. *)
Definition read_requests (schedule : concurrent_futures.Schedule)
    (g : updater.Globals) (domain : string) : list Request :=
  match schedule with
  | concurrent_futures.FirstSubmittedFirst =>
      [retrieve_request (updater.porkbun_connector g) domain;
       lookup_request (updater.ipify_connector g)]
  | concurrent_futures.SecondSubmittedFirst =>
      [lookup_request (updater.ipify_connector g);
       retrieve_request (updater.porkbun_connector g) domain]
  end.

(** What [raise_for_status] makes of an answer, and what a call makes of
    the network's reply when nothing of the body is read. *)
Definition status_result (reply : Reply) : Result unit :=
  match reply with
  | NoReply f => Raise (transport_exception f)
  | Replied response =>
      if http_failure (status_code response)
      then Raise (HTTPError (status_code response))
      else Ok tt
  end.

(** A request to the lookup service: a GET without a body. *)
Definition is_lookup (rq : Request) : Prop :=
  req_method rq = GET
  ∧ req_url rq = ipify.IPify._IPIFY_API_ENDPOINT
  ∧ req_json rq = None.

(** A request to one of the provider's two endpoints for [domain] that
    carries the given credentials. *)
Definition is_provider_call (domain key secret : string) (rq : Request) : Prop :=
  req_method rq = POST
  ∧ (req_url rq = porkbun.PorkBun._PORKBUN_API_GET_ENDPOINT domain
     ∨ req_url rq = porkbun.PorkBun._PORKBUN_API_EDIT_ENDPOINT domain)
  ∧ request_field rq "apikey" = Some (JStr key)
  ∧ request_field rq "secretapikey" = Some (JStr secret).

(** ** Example runs: the scenarios of the specification *)

Module example.
Import updater.

Definition argv : CommandLine :=
  mkCommandLine "example.com" "key" "secret" None None false.

Definition args : Args := mkArgs "example.com" "key" "secret" 600 10 false.

Definition a_record (ip ttl : string) : json :=
  JObj {[ "name" := JStr "example.com"; "type" := JStr "A";
          "content" := JStr ip; "ttl" := JStr ttl ]}.

Definition record_body (records : list json) : json :=
  JObj {[ "status" := JStr "SUCCESS"; "records" := JArr records ]}.

Definition ip_body (ip : string) : json := JObj {[ "ip" := JStr ip ]}.

(** A network that answers the IP lookup with [lookup], the record read
    with [retrieve] and every other request with an empty 200. *)
Definition network (retrieve lookup : Reply) : Network :=
  λ _ rq,
    match req_method rq with
    | GET => lookup
    | POST =>
        if String.prefix "https://porkbun.com/api/json/v3/dns/retrieveByNameType/"
             (req_url rq)
        then retrieve
        else Replied (mkResponse 200 None)
    end.

Definition ok (body : json) : Reply := Replied (mkResponse 200 (Some body)).


(** The example runs hold ASCII text only, for which the tables are not
    consulted: these, which know no character beyond ASCII, do for them. *)
Definition tables : builtins.UnicodeTables := λ s, s.

End example.

(** * Properties *)

Section Interpreter.
Context `{builtins.UnicodeTables}.

(** ** [int] reads back what [str] writes *)

Section IntStr.
Import builtins.

Lemma digit_value_range (a : ascii) (d : Z) : digit_value a = Some d → 0 <= d <= 9.
Proof.
  unfold digit_value.
  destruct ((48 <=? Z.of_nat (nat_of_ascii a)) && (Z.of_nat (nat_of_ascii a) <=? 57))
    eqn:Hr; [|discriminate].
  intros [= <-]. lia.
Qed.

Lemma space_stops_scan (a : ascii) :
  is_space a = true → digit_value a = None ∧ is_underscore a = false.
Proof.
  destruct a as [[] [] [] [] [] [] [] []]; intros Hs; try discriminate Hs;
    split; reflexivity.
Qed.

Lemma scan_digits_blanks (r : string) (acc count : Z) :
  all_space r = true → scan_digits r false acc count = Some (acc, count, r).
Proof.
  destruct r as [|a r]; intros Hr; [reflexivity|].
  simpl in Hr. apply andb_true_iff in Hr as [Ha _].
  destruct (space_stops_scan a Ha) as [Hd Hu]. simpl. rewrite Hd, Hu. reflexivity.
Qed.

(** Scanning a digit sequence followed by blanks reads its value and
    counts its digits. *)
Lemma scan_digits_string_of_uint (d : Decimal.uint) (r : string) (acc count : Z) :
  all_space r = true →
  scan_digits (NilEmpty.string_of_uint d +:+ r) false acc count
  = Some (uint_value d acc, count + Z.of_nat (Decimal.nb_digits d), r).
Proof.
  intros Hr. revert acc count.
  induction d as [|l IH|l IH|l IH|l IH|l IH|l IH|l IH|l IH|l IH|l IH];
    intros acc count.
  { change (scan_digits r false acc count = Some (acc, count + 0, r)).
    rewrite (scan_digits_blanks r acc count Hr). do 3 f_equal. lia. }
  all: match goal with
       | |- _ = Some (uint_value _ _, _, _) => cbn [uint_value Decimal.nb_digits]
       end;
       match goal with
       | IH' : ∀ a c : Z, _
         |- scan_digits _ false _ ?c0 = Some (uint_value ?l' ?acc', _, ?r') =>
           transitivity (Some (uint_value l' acc',
                               c0 + 1 + Z.of_nat (Decimal.nb_digits l'), r'));
           [exact (IH' acc' (c0 + 1)) | do 3 f_equal; lia]
       end.
Qed.

Lemma uint_value_pos (d : Decimal.uint) (acc : positive) :
  uint_value d (Z.pos acc) = Z.pos (Pos.of_uint_acc d acc).
Proof.
  revert acc. induction d as [|l IH|l IH|l IH|l IH|l IH|l IH|l IH|l IH|l IH|l IH];
    intros acc; simpl; [reflexivity | ..];
    match goal with
    | |- uint_value _ ?z = Z.pos (Pos.of_uint_acc _ ?p) =>
        replace z with (Z.pos p) by lia; apply IH
    end.
Qed.

Lemma uint_value_of_uint (d : Decimal.uint) :
  uint_value d 0 = Z.of_uint d.
Proof.
  unfold Z.of_uint.
  induction d as [|l IH|l IH|l IH|l IH|l IH|l IH|l IH|l IH|l IH|l IH];
    simpl; [reflexivity | exact IH | apply (uint_value_pos l) ..].
Qed.

Lemma uint_value_lower (d : Decimal.uint) (acc : Z) :
  0 <= acc → acc * 10 ^ Z.of_nat (Decimal.nb_digits d) <= uint_value d acc.
Proof.
  revert acc. induction d as [|l IH|l IH|l IH|l IH|l IH|l IH|l IH|l IH|l IH|l IH];
    intros acc Hacc; cbn [uint_value Decimal.nb_digits].
  { change (Z.of_nat 0) with 0. rewrite Z.pow_0_r. lia. }
  all: rewrite Nat2Z.inj_succ, Z.pow_succ_r by lia;
       match goal with
       | IH' : ∀ a : Z, _ |- _ <= uint_value ?l' ?acc' =>
           specialize (IH' acc' ltac:(lia));
           assert (0 < 10 ^ Z.of_nat (Decimal.nb_digits l'))
             by (apply Z.pow_pos_nonneg; lia);
           nia
       end.
Qed.

(** A digit sequence that does not start with a zero denotes a number of
    at least as many digits. *)
Lemma nzhead_lower (d : Decimal.uint) :
  Decimal.nzhead d = d → d ≠ Decimal.Nil →
  10 ^ (Z.of_nat (Decimal.nb_digits d) - 1) <= Z.of_uint d.
Proof.
  intros Hnz Hne. rewrite <- uint_value_of_uint.
  destruct d as [|l|l|l|l|l|l|l|l|l|l]; [congruence | ..].
  { exfalso. revert Hnz. apply DecimalFacts.nzhead_nonzero. }
  all: cbn [uint_value Decimal.nb_digits];
       rewrite Nat2Z.inj_succ;
       replace (Z.succ (Z.of_nat (Decimal.nb_digits l)) - 1)
         with (Z.of_nat (Decimal.nb_digits l)) by lia;
       match goal with
       | |- _ <= uint_value ?l' ?acc' =>
           pose proof (uint_value_lower l' acc' ltac:(lia));
           assert (0 < 10 ^ Z.of_nat (Decimal.nb_digits l'))
             by (apply Z.pow_pos_nonneg; lia);
           nia
       end.
Qed.

Lemma to_uint_nzhead (p : positive) :
  Decimal.nzhead (Pos.to_uint p) = Pos.to_uint p.
Proof.
  pose proof (DecimalPos.Unsigned.to_of (Pos.to_uint p)) as Hto.
  rewrite DecimalPos.Unsigned.of_to in Hto. cbn [N.to_uint] in Hto.
  rewrite Hto at 2. symmetry. apply DecimalFacts.unorm_nzhead.
  intros Hnil. apply DecimalFacts.unorm_0 in Hnil. rewrite <- Hto in Hnil.
  apply (DecimalPos.Unsigned.to_uint_nonzero p Hnil).
Qed.

(** The numeral of a positive number below [10 ^ k] has at most [k]
    digits. *)
Lemma nb_digits_to_uint (p : positive) (k : Z) :
  0 <= k → Z.pos p < 10 ^ k → Z.of_nat (Decimal.nb_digits (Pos.to_uint p)) <= k.
Proof.
  intros Hk Hlt.
  destruct (Z_le_gt_dec (Z.of_nat (Decimal.nb_digits (Pos.to_uint p))) k)
    as [Hle|Hgt]; [exact Hle|exfalso].
  pose proof (nzhead_lower (Pos.to_uint p) (to_uint_nzhead p)
                (DecimalPos.Unsigned.to_uint_nonnil p)) as Hlow.
  replace (Z.of_uint (Pos.to_uint p)) with (Z.pos p) in Hlow
    by (unfold Z.of_uint; rewrite DecimalPos.Unsigned.of_to; reflexivity).
  assert (10 ^ k <= 10 ^ (Z.of_nat (Decimal.nb_digits (Pos.to_uint p)) - 1))
    by (apply Z.pow_le_mono_r; lia).
  lia.
Qed.

Lemma parse_magnitude_cons (a : ascii) (s : string) (d : Z) :
  digit_value a = Some d →
  parse_magnitude (String a s)
  = match scan_digits s false d 1 with
    | Some (n, count, tail) =>
        if (count <=? max_str_digits) && all_space tail then Some n else None
    | None => None
    end.
Proof. intros Hd. simpl. rewrite Hd. reflexivity. Qed.

Lemma parse_magnitude_string_of_uint (d : Decimal.uint) (r : string) :
  d ≠ Decimal.Nil → Z.of_nat (Decimal.nb_digits d) <= max_str_digits →
  all_space r = true →
  parse_magnitude (NilEmpty.string_of_uint d +:+ r) = Some (Z.of_uint d).
Proof.
  intros Hd Hlen Hr. rewrite <- uint_value_of_uint.
  destruct d as [|l|l|l|l|l|l|l|l|l|l]; [congruence | ..].
  all: cbn [Decimal.nb_digits] in Hlen; rewrite Nat2Z.inj_succ in Hlen;
       cbn [NilEmpty.string_of_uint];
       match goal with
       | |- parse_magnitude (String ?a ?s +:+ ?t) = _ =>
           change (String a s +:+ t) with (String a (s +:+ t))
       end;
       erewrite parse_magnitude_cons by reflexivity;
       rewrite scan_digits_string_of_uint by exact Hr;
       rewrite Hr, (proj2 (Z.leb_le _ _)) by lia; reflexivity.
Qed.

Lemma int_ascii_string_of_uint (d : Decimal.uint) (r : string) :
  d ≠ Decimal.Nil → Z.of_nat (Decimal.nb_digits d) <= max_str_digits →
  all_space r = true →
  int_ascii (NilEmpty.string_of_uint d +:+ r) = Some (Z.of_uint d).
Proof.
  intros Hd Hlen Hr. rewrite <- (parse_magnitude_string_of_uint d r Hd Hlen Hr).
  destruct d; [congruence | reflexivity ..].
Qed.

Lemma ascii_text_app (s t : string) :
  ascii_text s = true → ascii_text t = true → ascii_text (s +:+ t) = true.
Proof.
  intros Hs Ht. induction s as [|a s IH]; [exact Ht|].
  simpl in Hs |- *. apply andb_true_iff in Hs as [Ha Hs].
  rewrite Ha. exact (IH Hs).
Qed.

Lemma ascii_text_blanks (s : string) : all_space s = true → ascii_text s = true.
Proof.
  induction s as [|a s IH]; [reflexivity|]. simpl.
  intros Hs. apply andb_true_iff in Hs as [Ha Hs]. rewrite (IH Hs), andb_true_r.
  destruct a as [[] [] [] [] [] [] [] []]; try discriminate Ha; reflexivity.
Qed.

Lemma ascii_text_string_of_uint (d : Decimal.uint) :
  ascii_text (NilEmpty.string_of_uint d) = true.
Proof.
  induction d as [|l IH|l IH|l IH|l IH|l IH|l IH|l IH|l IH|l IH|l IH];
    [reflexivity | exact IH ..].
Qed.

Lemma decimal_of_pos (p : positive) :
  NilZero.string_of_uint (Pos.to_uint p) = NilEmpty.string_of_uint (Pos.to_uint p).
Proof.
  pose proof (DecimalPos.Unsigned.to_uint_nonnil p).
  destruct (Pos.to_uint p); [congruence | reflexivity ..].
Qed.

Lemma ascii_text_decimal (n : Z) : ascii_text (decimal n) = true.
Proof.
  unfold decimal. destruct n as [|p|p]; [reflexivity | ..];
    cbn [Z.to_int NilZero.string_of_int]; rewrite decimal_of_pos.
  - apply ascii_text_string_of_uint.
  - change (true && ascii_text (NilEmpty.string_of_uint (Pos.to_uint p)) = true).
    apply ascii_text_string_of_uint.
Qed.

(** Text of ASCII characters is read as it is. *)
Lemma int_ascii_text (s : string) : ascii_text s = true → int s = int_ascii s.
Proof. intros Hs. unfold int. rewrite Hs. reflexivity. Qed.

Lemma of_uint_to_uint (p : positive) : Z.of_uint (Pos.to_uint p) = Z.pos p.
Proof. unfold Z.of_uint. rewrite DecimalPos.Unsigned.of_to. reflexivity. Qed.

(** [int] reads the numeral of a printable integer back, blanks after it
    or not. *)
Lemma int_ascii_decimal (n : Z) (r : string) :
  printable n → all_space r = true → int_ascii (decimal n +:+ r) = Some n.
Proof.
  unfold printable, decimal. intros Hn Hr. destruct n as [|p|p].
  - apply (int_ascii_string_of_uint (Decimal.D0 Decimal.Nil) r);
      [discriminate | unfold max_str_digits; cbn; lia | exact Hr].
  - cbn [Z.to_int NilZero.string_of_int]. rewrite decimal_of_pos.
    rewrite <- (of_uint_to_uint p).
    apply int_ascii_string_of_uint;
      [apply DecimalPos.Unsigned.to_uint_nonnil | | exact Hr].
    apply nb_digits_to_uint; [unfold max_str_digits; lia | exact Hn].
  - cbn [Z.to_int NilZero.string_of_int]. rewrite decimal_of_pos.
    change (Z.opp <$> parse_magnitude (NilEmpty.string_of_uint (Pos.to_uint p) +:+ r)
            = Some (Z.neg p)).
    rewrite parse_magnitude_string_of_uint;
      [rewrite of_uint_to_uint; reflexivity
      | apply DecimalPos.Unsigned.to_uint_nonnil | | exact Hr].
    apply nb_digits_to_uint; [unfold max_str_digits; lia | exact Hn].
Qed.




Lemma str_printable (n : Z) : printable n → str n = Some (decimal n).
Proof.
  unfold printable, str. intros Hn. rewrite (proj2 (Z.ltb_lt _ _) Hn). reflexivity.
Qed.


Lemma decimal_inj (m n : Z) : decimal m = decimal n → m = n.
Proof.
  unfold decimal. intros Heq. apply DecimalZ.to_int_inj.
  assert (Hnn : ∀ z, Z.to_int z ≠ Decimal.Pos Decimal.Nil
                     ∧ Z.to_int z ≠ Decimal.Neg Decimal.Nil).
  { intros [|p|p]; cbn [Z.to_int]; split; try discriminate;
      intros [= Hp]; apply (DecimalPos.Unsigned.to_uint_nonnil p Hp). }
  apply (f_equal NilZero.int_of_string) in Heq.
  rewrite !NilZero.isi in Heq by apply Hnn. congruence.
Qed.

(** What the scan returns is below the power of ten that its count of
    digits names. *)
Lemma scan_digits_bound (s : string) (prev : bool) (acc count v c : Z) (rest : string) :
  0 <= count → 0 <= acc < 10 ^ count →
  scan_digits s prev acc count = Some (v, c, rest) →
  0 <= c ∧ 0 <= v < 10 ^ c.
Proof.
  revert prev acc count. induction s as [|a s IH]; intros prev acc count Hc Hacc.
  - simpl. destruct prev; [discriminate|]. intros [= <- <- <-]. auto.
  - simpl. destruct (digit_value a) as [d|] eqn:Hd.
    + apply IH; [lia|]. apply digit_value_range in Hd.
      rewrite Z.pow_add_r, Z.pow_1_r by lia. lia.
    + destruct (is_underscore a).
      * destruct prev; [discriminate|]. apply IH; assumption.
      * destruct prev; [discriminate|]. intros [= <- <- <-]. auto.
Qed.

Lemma parse_magnitude_bound (s : string) (n : Z) :
  parse_magnitude s = Some n → 0 <= n < 10 ^ max_str_digits.
Proof.
  destruct s as [|a s]; [discriminate|]. simpl.
  destruct (digit_value a) as [d|] eqn:Hd; [|discriminate].
  destruct (scan_digits s false d 1) as [[[v c] rest]|] eqn:Hscan; [|discriminate].
  destruct (c <=? max_str_digits) eqn:Hc; [|discriminate].
  destruct (all_space rest); [|discriminate]. intros [= <-].
  apply digit_value_range in Hd.
  destruct (scan_digits_bound s false d 1 v c rest) as [Hc0 Hv];
    [lia | rewrite Z.pow_1_r; lia | exact Hscan |].
  apply Z.leb_le in Hc.
  assert (10 ^ c <= 10 ^ max_str_digits) by (apply Z.pow_le_mono_r; lia).
  lia.
Qed.

Lemma int_ascii_printable (s : string) (n : Z) : int_ascii s = Some n → printable n.
Proof.
  unfold int_ascii, printable.
  assert (Hmag : ∀ t m, parse_magnitude t = Some m → Z.abs m < 10 ^ max_str_digits)
    by (intros t m Hm; apply parse_magnitude_bound in Hm; lia).
  assert (Hneg : ∀ t m, Z.opp <$> parse_magnitude t = Some m
                        → Z.abs m < 10 ^ max_str_digits).
  { intros t m. destruct (parse_magnitude t) as [k|] eqn:Hk; [|discriminate].
    intros [= <-]. apply parse_magnitude_bound in Hk. lia. }
  destruct (lstrip s) as [|a t]; [apply Hmag|].
  destruct a as [[] [] [] [] [] [] [] []]; eauto.
Qed.

(** Whatever the tables, what [int] returns is printable. *)
Lemma int_printable (s : string) (n : Z) : int s = Some n → printable n.
Proof. unfold int. apply int_ascii_printable. Qed.

End IntStr.

(** ** Running the clients *)

Ltac exec_unfold :=
  unfold porkbun.PorkBun.get_a_record, porkbun.PorkBun.update_a_record,
    ipify.IPify.get_current_ip, requests.post, requests.get,
    requests.raise_for_status, send, lift, attr, raise,
    mbind, exec_bind, bind, mret, exec_ret, ret; simpl.

Section Clients.
Import ipify porkbun.
Variable net : Network.
Variable sent : list Request.

(** What [get_current_ip] does, by the network's answer. *)
Lemma get_current_ip_run (self : IPify.t) :
  IPify.get_current_ip net self sent
  = mkOutcome
      match net sent (lookup_request self) with
      | NoReply f => Raise (transport_exception f)
      | Replied response =>
          if http_failure (status_code response)
          then Raise (HTTPError (status_code response))
          else match IPifyResponseModel.model_validate_json (content response) with
               | Ok parsed => Ok (IP.mk (IPifyResponseModel.ip parsed))
               | Raise e => Raise e
               end
      end
      self (sent ++ [lookup_request self]).
Proof.
  exec_unfold. fold (lookup_request self).
  destruct (net sent (lookup_request self)) as [f|response]; simpl; [reflexivity|].
  unfold http_failure.
  destruct ((400 <=? status_code response) && (status_code response <? 600)); simpl;
    [reflexivity|].
  destruct (IPifyResponseModel.model_validate_json (content response)); reflexivity.
Qed.

Lemma get_a_record_run (self : PorkBun.t) (domain : string) :
  PorkBun.get_a_record domain net self sent
  = mkOutcome
      match net sent (retrieve_request self domain) with
      | NoReply f => Raise (transport_exception f)
      | Replied response =>
          if http_failure (status_code response)
          then Raise (HTTPError (status_code response))
          else match DNSARecordResponseModel.model_validate_json (content response) with
               | Ok parsed => a_record_of parsed
               | Raise e => Raise e
               end
      end
      self (sent ++ [retrieve_request self domain]).
Proof.
  exec_unfold. fold (retrieve_request self domain).
  destruct (net sent (retrieve_request self domain)) as [f|response]; simpl;
    [reflexivity|].
  unfold http_failure.
  destruct ((400 <=? status_code response) && (status_code response <? 600)); simpl;
    [reflexivity|].
  destruct (DNSARecordResponseModel.model_validate_json (content response))
    as [parsed|e]; simpl; [|reflexivity].
  unfold a_record_of.
  destruct (DNSARecordResponseModel.record parsed) as [first|e]; simpl; [|reflexivity].
  destruct (builtins.int (DNSARecordModel.ttl first)); reflexivity.
Qed.

(** What [update_a_record] does: nothing is sent when [str] refuses the
    TTL; otherwise one request is sent and the call ends as the status of
    the answer says. *)
Lemma update_a_record_run (self : PorkBun.t) (domain ip : string) (ttl : option Z) :
  PorkBun.update_a_record domain ip ttl net self sent
  = match builtins.str (default 600 ttl) with
    | Some _ =>
        mkOutcome (status_result (net sent (edit_request self domain ip (default 600 ttl))))
          self (sent ++ [edit_request self domain ip (default 600 ttl)])
    | None => mkOutcome (Raise ValueError) self sent
    end.
Proof.
  exec_unfold. unfold builtins.str.
  destruct (Z.abs (default 600 ttl) <? 10 ^ builtins.max_str_digits); [|reflexivity].
  cbn [result self_after sent_after].
  fold (edit_request self domain ip (default 600 ttl)).
  destruct (net sent (edit_request self domain ip (default 600 ttl)))
    as [f|response]; cbn [result self_after sent_after status_result]; [reflexivity|].
  unfold http_failure.
  destruct ((400 <=? status_code response) && (status_code response <? 600));
    reflexivity.
Qed.

Lemma update_a_record_printable (self : PorkBun.t) (domain ip : string) (ttl : option Z) :
  builtins.printable (default 600 ttl) →
  PorkBun.update_a_record domain ip ttl net self sent
  = mkOutcome (status_result (net sent (edit_request self domain ip (default 600 ttl))))
      self (sent ++ [edit_request self domain ip (default 600 ttl)]).
Proof.
  intros Hp. rewrite update_a_record_run, (str_printable _ Hp). reflexivity.
Qed.


Lemma update_a_record_self (self : PorkBun.t) (domain ip : string) (ttl : option Z) :
  self_after (PorkBun.update_a_record domain ip ttl net self sent) = self.
Proof.
  rewrite update_a_record_run. destruct (builtins.str (default 600 ttl)); reflexivity.
Qed.

End Clients.

(** ** Running the reconciliation pass *)

Section Pass.
Import ipify porkbun updater concurrent_futures.
Variable args : Args.
Variable schedule : Schedule.
Variable net : Network.
Variable g : Globals.
Variable sent : list Request.

Lemma set_porkbun_connector_same : set_porkbun_connector (porkbun_connector g) g = g.
Proof. destruct g; reflexivity. Qed.

Lemma set_ipify_connector_same : set_ipify_connector (ipify_connector g) g = g.
Proof. destruct g; reflexivity. Qed.

Lemma on_porkbun_get_a_record (sent' : list Request) :
  on_porkbun (PorkBun.get_a_record (domain args)) net g sent'
  = mkOutcome
      (result (PorkBun.get_a_record (domain args) net (porkbun_connector g) sent'))
      g (sent' ++ [retrieve_request (porkbun_connector g) (domain args)]).
Proof.
  unfold on_porkbun, call. rewrite get_a_record_run. simpl.
  rewrite set_porkbun_connector_same. reflexivity.
Qed.

Lemma on_ipify_get_current_ip (sent' : list Request) :
  on_ipify IPify.get_current_ip net g sent'
  = mkOutcome
      (result (IPify.get_current_ip net (ipify_connector g) sent'))
      g (sent' ++ [lookup_request (ipify_connector g)]).
Proof.
  unfold on_ipify, call. rewrite get_current_ip_run. simpl.
  rewrite set_ipify_connector_same. reflexivity.
Qed.

Lemma on_porkbun_update_a_record (sent' : list Request) (ip : string) (ttl : option Z) :
  on_porkbun (PorkBun.update_a_record (domain args) ip ttl) net g sent'
  = mkOutcome
      (result (PorkBun.update_a_record (domain args) ip ttl net (porkbun_connector g) sent'))
      g
      (sent_after (PorkBun.update_a_record (domain args) ip ttl net
                     (porkbun_connector g) sent')).
Proof.
  unfold on_porkbun, call. rewrite update_a_record_self.
  rewrite set_porkbun_connector_same. reflexivity.
Qed.

(** The two reads always give a pair of futures, leave the clients as they
    were, and send the two read requests in the order of the schedule. *)
Lemma reads_run :
  ∃ record_task current_task,
    reads args schedule net g sent
    = mkOutcome (Ok (record_task, current_task)) g
        (sent ++ match schedule with
                 | FirstSubmittedFirst =>
                     [retrieve_request (porkbun_connector g) (domain args);
                      lookup_request (ipify_connector g)]
                 | SecondSubmittedFirst =>
                     [lookup_request (ipify_connector g);
                      retrieve_request (porkbun_connector g) (domain args)]
                 end).
Proof.
  unfold reads, submit_two, run_task, mbind, exec_bind, bind, mret, exec_ret, ret.
  destruct schedule.
  - rewrite on_porkbun_get_a_record. cbn [result self_after sent_after].
    rewrite on_ipify_get_current_ip. cbn [result self_after sent_after].
    rewrite <- app_assoc. eauto.
  - rewrite on_ipify_get_current_ip. cbn [result self_after sent_after].
    rewrite on_porkbun_get_a_record. cbn [result self_after sent_after].
    rewrite <- app_assoc. eauto.
Qed.

Lemma retrieve_not_update (self : PorkBun.t) (d : string) :
  is_update_call (retrieve_request self d) = false.
Proof. reflexivity. Qed.

Lemma lookup_not_update (self : IPify.t) :
  is_update_call (lookup_request self) = false.
Proof. reflexivity. Qed.

Lemma edit_is_update (self : PorkBun.t) (d ip : string) (ttl : Z) :
  is_update_call (edit_request self d ip ttl) = true.
Proof. destruct d; reflexivity. Qed.

Lemma reads_no_update_call :
  update_calls (sent_after (reads args schedule net g sent)) = update_calls sent.
Proof.
  destruct reads_run as (fr & fc & ->). cbn [sent_after]. unfold update_calls.
  rewrite List.filter_app.
  destruct schedule; cbn [List.filter];
    rewrite retrieve_not_update, lookup_not_update; apply app_nil_r.
Qed.

Lemma reads_self_after : self_after (reads args schedule net g sent) = g.
Proof. destruct reads_run as (fr & fc & ->). reflexivity. Qed.

Lemma reconcile_after_reads (futures : Result ARecord.t * Result IP.t) :
  result (reads args schedule net g sent) = Ok futures →
  reconcile args schedule net g sent
  = compare_and_update args futures net g
      (sent_after (reads args schedule net g sent)).
Proof.
  intros Hr. unfold reconcile, mbind, exec_bind, bind.
  rewrite Hr, reads_self_after. reflexivity.
Qed.

End Pass.

(** ** The reconciler: when an update is issued *)

Section Reconciler.
Import ipify porkbun updater concurrent_futures.

Lemma compare_and_update_differ (args : Args) (net : Network) (g : Globals)
    (sent : list Request) (record : ARecord.t) (current : IP.t) :
  IP.ip current ≠ ARecord.ip record →
  compare_and_update args (Ok record, Ok current) net g sent
  = on_porkbun (PorkBun.update_a_record (domain args) (IP.ip current) (Some (ttl args)))
      net g sent.
Proof.
  intros Hne. unfold compare_and_update, future_result, lift, mbind, exec_bind, bind.
  cbn [fst snd result self_after sent_after].
  destruct (String.eqb_spec (IP.ip current) (ARecord.ip record)) as [Heq|_];
    [contradiction|reflexivity].
Qed.

Lemma compare_and_update_equal (args : Args) (net : Network) (g : Globals)
    (sent : list Request) (record : ARecord.t) (current : IP.t) :
  IP.ip current = ARecord.ip record →
  compare_and_update args (Ok record, Ok current) net g sent = mkOutcome (Ok tt) g sent.
Proof.
  intros Heq. unfold compare_and_update, future_result, lift, mbind, exec_bind, bind.
  cbn [fst snd result self_after sent_after].
  rewrite Heq, String.eqb_refl. reflexivity.
Qed.

Lemma compare_and_update_failed (args : Args) (net : Network) (g : Globals)
    (sent : list Request) (record_task : Result ARecord.t) (current_task : Result IP.t) :
  is_ok record_task && is_ok current_task = false →
  ∃ e, compare_and_update args (record_task, current_task) net g sent
       = mkOutcome (Raise e) g sent
       ∧ (record_task = Raise e ∨ current_task = Raise e).
Proof.
  intros Hfail. unfold compare_and_update, future_result, lift, mbind, exec_bind, bind.
  cbn [fst snd result self_after sent_after].
  destruct record_task as [record|e]; cbn [result self_after sent_after].
  - destruct current_task as [current|e]; [discriminate Hfail|].
    exists e. split; [reflexivity | right; reflexivity].
  - exists e. split; [reflexivity | left; reflexivity].
Qed.

(** The TTL and the timeout of the parsed command line. *)
Lemma parse_args_numbers (argv : CommandLine) (args : Args) :
  parse_args argv = Some args →
  match cl_ttl argv with
  | None => ttl args = 600
  | Some text => builtins.int text = Some (ttl args)
  end
  ∧ match cl_timeout argv with
    | None => timeout args = 10
    | Some text => builtins.int text = Some (timeout args)
    end.
Proof.
  unfold parse_args, int_option. intros Hargs.
  destruct (cl_ttl argv) as [t|]; simpl in Hargs;
    [destruct (builtins.int t); simpl in Hargs; [|discriminate]|];
    (destruct (cl_timeout argv) as [u|]; simpl in Hargs;
     [destruct (builtins.int u); simpl in Hargs; [|discriminate]|]);
    injection Hargs as <-; split; reflexivity.
Qed.

Lemma printable_600 : builtins.printable 600.
Proof.
  unfold builtins.printable, builtins.max_str_digits.
  apply Z.ltb_lt. vm_compute. reflexivity.
Qed.

(** The TTL of a parsed command line is one that [str] prints. *)
Lemma parse_args_printable (argv : CommandLine) (args : Args) :
  parse_args argv = Some args → builtins.printable (ttl args).
Proof.
  intros Hargs. destruct (parse_args_numbers argv args Hargs) as [Httl _].
  destruct (cl_ttl argv) as [text|].
  - apply (int_printable _ _ Httl).
  - rewrite Httl. apply printable_600.
Qed.

End Reconciler.

(** C1.  In a pass whose two reads succeed with different IP strings, the
    pass is exactly one call [update_a_record(domain, current.ip, args.ttl)]
    after the reads: one request to the edit endpoint is sent, it carries
    the looked-up IP as [content] and [str] of the configured TTL as [ttl],
    whatever TTL the record read holds; the configured TTL is 600 when the
    command line gives none. *)
Theorem mismatch_issues_one_update
    (argv : updater.CommandLine) (args : updater.Args)
    (schedule : concurrent_futures.Schedule) (net : Network)
    (g : updater.Globals) (sent : list Request)
    (record : porkbun.ARecord.t) (current : ipify.IP.t) :
  updater.parse_args argv = Some args →
  result (updater.reads args schedule net g sent) = Ok (Ok record, Ok current) →
  ipify.IP.ip current ≠ porkbun.ARecord.ip record →
  let after_reads := sent_after (updater.reads args schedule net g sent) in
  let pass := updater.reconcile args schedule net g sent in
  let update := edit_request (updater.porkbun_connector g) (updater.domain args)
                  (ipify.IP.ip current) (updater.ttl args) in
  pass = updater.on_porkbun
           (porkbun.PorkBun.update_a_record (updater.domain args)
              (ipify.IP.ip current) (Some (updater.ttl args)))
           net g after_reads
  ∧ sent_after pass = after_reads ++ [update]
  ∧ updater.update_calls (sent_after pass) = updater.update_calls sent ++ [update]
  ∧ request_field update "content" = Some (JStr (ipify.IP.ip current))
  ∧ request_field update "ttl" = JStr <$> builtins.str (updater.ttl args)
  ∧ match updater.cl_ttl argv with
    | None => updater.ttl args = 600
    | Some text => builtins.int text = Some (updater.ttl args)
    end.
Proof.
  intros Hargs Hreads Hne after_reads pass update.
  assert (Hpass : pass = updater.on_porkbun
            (porkbun.PorkBun.update_a_record (updater.domain args)
               (ipify.IP.ip current) (Some (updater.ttl args)))
            net g after_reads).
  { unfold pass. rewrite (reconcile_after_reads _ _ _ _ _ _ Hreads).
    apply compare_and_update_differ, Hne. }
  assert (Hprint := parse_args_printable argv args Hargs).
  assert (Hsent : sent_after pass = after_reads ++ [update]).
  { rewrite Hpass, on_porkbun_update_a_record.
    rewrite (update_a_record_printable _ _ _ _ _ (Some (updater.ttl args)) Hprint).
    reflexivity. }
  split; [exact Hpass|]. split; [exact Hsent|]. split.
  { rewrite Hsent. unfold updater.update_calls. rewrite List.filter_app.
    fold (updater.update_calls after_reads). unfold after_reads.
    rewrite reads_no_update_call. cbn [List.filter].
    unfold update. rewrite edit_is_update. reflexivity. }
  split; [reflexivity|]. split.
  { rewrite (str_printable _ Hprint). reflexivity. }
  apply (parse_args_numbers argv args Hargs).
Qed.

(** C2.  In a pass whose two reads succeed with the same IP string, the
    pass ends normally right after the reads: nothing more is sent, and no
    request to the edit endpoint is among what was sent. *)
Theorem equal_ips_issue_no_update
    (args : updater.Args) (schedule : concurrent_futures.Schedule) (net : Network)
    (g : updater.Globals) (sent : list Request)
    (record : porkbun.ARecord.t) (current : ipify.IP.t) :
  result (updater.reads args schedule net g sent) = Ok (Ok record, Ok current) →
  ipify.IP.ip current = porkbun.ARecord.ip record →
  let pass := updater.reconcile args schedule net g sent in
  result pass = Ok tt
  ∧ sent_after pass = sent_after (updater.reads args schedule net g sent)
  ∧ updater.update_calls (sent_after pass) = updater.update_calls sent.
Proof.
  intros Hreads Heq pass. unfold pass.
  rewrite (reconcile_after_reads _ _ _ _ _ _ Hreads).
  rewrite (compare_and_update_equal _ _ _ _ _ _ Heq).
  cbn [result sent_after]. rewrite reads_no_update_call. auto.
Qed.

(** The comparison is textual: two spellings of one address differ, and
    the update is sent with the spelling the lookup reported. *)
Example textual_comparison :
  updater.update_calls
    (sent_after
       (updater.reconcile example.args concurrent_futures.FirstSubmittedFirst
          (example.network
             (example.ok (example.record_body [example.a_record "1.2.3.4" "600"]))
             (example.ok (example.ip_body "1.2.3.04")))
          (updater.connectors example.args) []))
  = [edit_request (updater.porkbun_connector (updater.connectors example.args))
       "example.com" "1.2.3.04" 600].
Proof. vm_compute. reflexivity. Qed.

(** C4.  In a pass in which the record read or the IP lookup raised, the
    pass raises the exception of a failed read right after the reads:
    nothing more is sent and no request to the edit endpoint is among what
    was sent. *)
Theorem failed_read_fails_pass
    (args : updater.Args) (schedule : concurrent_futures.Schedule) (net : Network)
    (g : updater.Globals) (sent : list Request)
    (record_task : Result porkbun.ARecord.t) (current_task : Result ipify.IP.t) :
  result (updater.reads args schedule net g sent) = Ok (record_task, current_task) →
  is_ok record_task && is_ok current_task = false →
  let pass := updater.reconcile args schedule net g sent in
  (∃ e, result pass = Raise e ∧ (record_task = Raise e ∨ current_task = Raise e))
  ∧ sent_after pass = sent_after (updater.reads args schedule net g sent)
  ∧ updater.update_calls (sent_after pass) = updater.update_calls sent.
Proof.
  intros Hreads Hfail pass. unfold pass.
  rewrite (reconcile_after_reads _ _ _ _ _ _ Hreads).
  destruct (compare_and_update_failed args net g
              (sent_after (updater.reads args schedule net g sent))
              record_task current_task Hfail) as (e & -> & Hwho).
  cbn [result sent_after]. rewrite reads_no_update_call. eauto.
Qed.

(** ** Validation of the record read *)

Section Validation.
Import porkbun.

(** The class body leaves no validator registered for [records]. *)
Lemma check_records_length_unregistered :
  pydantic.field_validators DNSARecordResponseModel.namespace "records" = [].
Proof. reflexivity. Qed.

(** What decides it is the order of the two decorators: the proxy bound
    directly is registered, the proxy inside a [classmethod] is not. *)
Lemma validator_outermost_registered {V} (name field : string) (f : V → Result V) :
  pydantic.field_validators [(name, pydantic.validator field f)] field = [f].
Proof. simpl. rewrite String.eqb_refl. reflexivity. Qed.

Lemma classmethod_outermost_unregistered {V} (name field : string)
    (x : pydantic.ClassAttr V) :
  pydantic.field_validators [(name, pydantic.classmethod x)] field = [].
Proof. reflexivity. Qed.

(** Had it been registered, the check would reject every list whose
    length is not one. *)
Lemma check_records_length_rejects (v : list DNSARecordModel.t) :
  length v ≠ 1%nat →
  pydantic.run_validators [DNSARecordResponseModel.check_records_length] v
  = Raise ValidationError.
Proof.
  intros Hlen. simpl. unfold DNSARecordResponseModel.check_records_length.
  destruct (Nat.eqb_spec (length v) 1) as [Heq|_]; [contradiction|reflexivity].
Qed.

Lemma validate_record (rfields : gmap string json) (name ip s : string) :
  rfields !! "name" = Some (JStr name) →
  rfields !! "type" = Some (JStr "A") →
  rfields !! "content" = Some (JStr ip) →
  rfields !! "ttl" = Some (JStr s) →
  DNSARecordModel.validate (JObj rfields) = Ok (DNSARecordModel.mk name "A" ip s).
Proof.
  intros Hn Ht Hc Hl. unfold DNSARecordModel.validate.
  rewrite Hn, Ht, Hc, Hl. reflexivity.
Qed.

(** The schema accepts a list of records of any length. *)
Lemma model_validate_json_records (fields : gmap string json) (items : list json)
    (records : list DNSARecordModel.t) :
  fields !! "status" = Some (JStr "SUCCESS") →
  fields !! "records" = Some (JArr items) →
  result_map_list DNSARecordModel.validate items = Ok records →
  DNSARecordResponseModel.model_validate_json (Some (JObj fields))
  = Ok (DNSARecordResponseModel.mk "SUCCESS" records).
Proof.
  intros Hs Hr Hitems. unfold DNSARecordResponseModel.model_validate_json.
  rewrite Hs, Hr. simpl. rewrite Hitems. reflexivity.
Qed.


(** A record of another type than A does not pass the schema. *)
Lemma validate_record_type (rfields : gmap string json) (t : string) :
  rfields !! "type" = Some (JStr t) → t ≠ "A" →
  DNSARecordModel.validate (JObj rfields) = Raise ValidationError.
Proof.
  intros Ht Hne. unfold DNSARecordModel.validate. rewrite Ht.
  destruct (rfields !! "name") as [[| | |name| |]|]; try reflexivity.
  simpl. destruct (String.eqb_spec t "A"); [contradiction|reflexivity].
Qed.


End Validation.

(** C3.  The record count is not enforced.  On a well-formed answer with
    two records [get_a_record] returns the first one, and the pass goes on
    to send an update; on an answer with no record it raises [IndexError]
    from [records[0]], not a validation error. *)
Theorem two_records_first_is_picked :
  let self := updater.porkbun_connector (updater.connectors example.args) in
  let two := example.network
               (example.ok (example.record_body
                  [example.a_record "1.2.3.4" "600"; example.a_record "9.9.9.9" "300"]))
               (example.ok (example.ip_body "5.6.7.8")) in
  let none := example.network (example.ok (example.record_body []))
                (example.ok (example.ip_body "5.6.7.8")) in
  result (porkbun.PorkBun.get_a_record "example.com" two self [])
  = Ok (porkbun.ARecord.mk "1.2.3.4" 600)
  ∧ updater.main example.argv concurrent_futures.FirstSubmittedFirst two
    = Some (mkOutcome (Ok tt) (updater.connectors example.args)
              [retrieve_request self "example.com";
               lookup_request (updater.ipify_connector (updater.connectors example.args));
               edit_request self "example.com" "5.6.7.8" 600])
  ∧ result (porkbun.PorkBun.get_a_record "example.com" none self [])
    = Raise IndexError.
Proof. vm_compute. auto. Qed.

(** ** The TTL on the wire and in the record *)



(** C10.  The schema asks of [ttl] only that it is a string: an answer
    with status SUCCESS whose records are valid, the first of them of type
    A with any text as [ttl], passes validation; when [int] rejects that
    text, [get_a_record] raises the [ValueError] of the conversion and
    returns no record. *)
Theorem malformed_ttl_fails_at_conversion
    (net : Network) (sent : list Request) (self : porkbun.PorkBun.t)
    (domain : string) (response : Response) (fields rfields : gmap string json)
    (more : list json) (rest : list porkbun.DNSARecordModel.t)
    (name ip s : string) :
  net sent (retrieve_request self domain) = Replied response →
  http_failure (status_code response) = false →
  content response = Some (JObj fields) →
  fields !! "status" = Some (JStr "SUCCESS") →
  fields !! "records" = Some (JArr (JObj rfields :: more)) →
  result_map_list porkbun.DNSARecordModel.validate more = Ok rest →
  rfields !! "name" = Some (JStr name) →
  rfields !! "type" = Some (JStr "A") →
  rfields !! "content" = Some (JStr ip) →
  rfields !! "ttl" = Some (JStr s) →
  builtins.int s = None →
  porkbun.DNSARecordResponseModel.model_validate_json (content response)
  = Ok (porkbun.DNSARecordResponseModel.mk "SUCCESS"
          (porkbun.DNSARecordModel.mk name "A" ip s :: rest))
  ∧ result (porkbun.PorkBun.get_a_record domain net self sent) = Raise ValueError.
Proof.
  intros Hnet Hstatus Hbody Hs Hr Hmore Hn Ht Hc Hl Hint.
  assert (Hvalid :
    porkbun.DNSARecordResponseModel.model_validate_json (Some (JObj fields))
    = Ok (porkbun.DNSARecordResponseModel.mk "SUCCESS"
            (porkbun.DNSARecordModel.mk name "A" ip s :: rest))).
  { apply (model_validate_json_records _ _ _ Hs Hr). cbn [result_map_list].
    rewrite (validate_record _ _ _ _ Hn Ht Hc Hl), Hmore. reflexivity. }
  rewrite Hbody. split; [exact Hvalid|].
  rewrite get_a_record_run. cbn [result]. rewrite Hnet, Hstatus, Hbody, Hvalid.
  unfold a_record_of. cbn. rewrite Hint. reflexivity.
Qed.

(** ** The IP lookup *)

(** C6.  [get_current_ip] sends one GET; when it returns, the answer's
    body is an object whose [ip] is a string and the result carries that
    very string; conversely any string there, whatever its syntax, is
    returned as it is; an object without [ip], a transport failure and a
    failure status each make the call raise. *)
Theorem get_current_ip_returns_reported_ip
    (net : Network) (sent : list Request) (self : ipify.IPify.t) :
  let run := ipify.IPify.get_current_ip net self sent in
  (∀ ip, result run = Ok ip →
     ∃ response fields,
       net sent (lookup_request self) = Replied response
       ∧ http_failure (status_code response) = false
       ∧ content response = Some (JObj fields)
       ∧ fields !! "ip" = Some (JStr (ipify.IP.ip ip)))
  ∧ (∀ response fields s,
       net sent (lookup_request self) = Replied response →
       http_failure (status_code response) = false →
       content response = Some (JObj fields) →
       fields !! "ip" = Some (JStr s) →
       result run = Ok (ipify.IP.mk s))
  ∧ (∀ response fields,
       net sent (lookup_request self) = Replied response →
       http_failure (status_code response) = false →
       content response = Some (JObj fields) →
       fields !! "ip" = None →
       result run = Raise ValidationError)
  ∧ (∀ f, net sent (lookup_request self) = NoReply f →
       result run = Raise (transport_exception f))
  ∧ (∀ response,
       net sent (lookup_request self) = Replied response →
       http_failure (status_code response) = true →
       result run = Raise (HTTPError (status_code response)))
  ∧ sent_after run = sent ++ [lookup_request self].
Proof.
  intros run. unfold run. rewrite get_current_ip_run. cbn [result sent_after].
  repeat split.
  - intros ip Hok.
    destruct (net sent (lookup_request self)) as [f|response]; [discriminate|].
    destruct (http_failure (status_code response)) eqn:Hst; [discriminate|].
    destruct (content response) as [[| | | | |fields]|] eqn:Hbody; try discriminate.
    unfold ipify.IPifyResponseModel.model_validate_json in Hok.
    destruct (fields !! "ip") as [[| | |s| |]|] eqn:Hip; try discriminate.
    simpl in Hok. injection Hok as <-. exists response, fields. auto.
  - intros response fields s -> -> -> Hip.
    unfold ipify.IPifyResponseModel.model_validate_json. rewrite Hip. reflexivity.
  - intros response fields -> -> -> Hip.
    unfold ipify.IPifyResponseModel.model_validate_json. rewrite Hip. reflexivity.
  - intros f ->. reflexivity.
  - intros response -> ->. reflexivity.
Qed.

(** ** The update *)

(** C7.  [update_a_record], given a TTL that [str] prints, sends one POST
    to the edit endpoint.  When an answer comes back, its status alone
    decides: a status outside 400-599 makes the call return [None] (the
    unit value), a status inside makes it raise [HTTPError]; two answers
    with the same status give the same result whatever their bodies.  When
    no answer comes back, the call raises the transport exception. *)
Theorem update_a_record_status_only
    (net net' : Network) (sent : list Request) (self : porkbun.PorkBun.t)
    (domain ip : string) (ttl : option Z) :
  builtins.printable (default 600 ttl) →
  let update := edit_request self domain ip (default 600 ttl) in
  let run := porkbun.PorkBun.update_a_record domain ip ttl net self sent in
  let run' := porkbun.PorkBun.update_a_record domain ip ttl net' self sent in
  sent_after run = sent ++ [update]
  ∧ (∀ response,
       net sent update = Replied response →
       result run = (if http_failure (status_code response)
                     then Raise (HTTPError (status_code response))
                     else Ok tt)
       ∧ (∀ e, result run = Raise e →
            e = HTTPError (status_code response)
            ∧ 400 <= status_code response < 600))
  ∧ (∀ response response',
       net sent update = Replied response →
       net' sent update = Replied response' →
       status_code response' = status_code response →
       result run' = result run)
  ∧ (∀ f, net sent update = NoReply f →
       result run = Raise (transport_exception f)).
Proof.
  intros Hprint update run run'. unfold run, run', update.
  rewrite !(update_a_record_printable _ _ _ _ _ ttl Hprint).
  cbn [result sent_after]. split; [reflexivity|]. split; [|split].
  - intros response ->. cbn [status_result]. split; [reflexivity|].
    intros e He.
    destruct (http_failure (status_code response)) eqn:Hf; [|discriminate He].
    injection He as <-. unfold http_failure in Hf. split; [reflexivity|lia].
  - intros response response' -> -> Hst. cbn [status_result]. rewrite Hst. reflexivity.
  - intros f ->. reflexivity.
Qed.

(** Once the request is sent, a failure status is not the only way to
    fail: without an answer the call raises the transport exception. *)
Lemma update_a_record_fails_without_answer
    (net : Network) (sent : list Request) (self : porkbun.PorkBun.t)
    (domain ip : string) (f : TransportFailure) :
  net sent (edit_request self domain ip 600) = NoReply f →
  porkbun.PorkBun.update_a_record domain ip None net self sent
  = mkOutcome (Raise (transport_exception f)) self
      (sent ++ [edit_request self domain ip 600]).
Proof.
  intros Hnet. rewrite (update_a_record_printable _ _ _ _ _ None printable_600).
  change (default 600 None) with 600. rewrite Hnet. reflexivity.
Qed.

(** ** The clients' configuration *)

(** C9.  The constructors store their arguments, and no operation writes
    to the object it is called on: after [get_a_record], [update_a_record]
    and [get_current_ip] the client is the one before the call, and after
    a whole pass both clients are the ones the pass started with. *)
Theorem configuration_is_read_only
    (net : Network) (sent : list Request)
    (pb : porkbun.PorkBun.t) (ipf : ipify.IPify.t)
    (domain ip : string) (ttl : option Z)
    (key secret : string) (timeout : option Z) (verbose : option bool)
    (args : updater.Args) (schedule : concurrent_futures.Schedule)
    (g : updater.Globals) :
  self_after (porkbun.PorkBun.get_a_record domain net pb sent) = pb
  ∧ self_after (porkbun.PorkBun.update_a_record domain ip ttl net pb sent) = pb
  ∧ self_after (ipify.IPify.get_current_ip net ipf sent) = ipf
  ∧ self_after (updater.reconcile args schedule net g sent) = g
  ∧ porkbun.PorkBun.__init__ key secret timeout verbose
    = porkbun.PorkBun.mk (default 10 timeout) key secret
  ∧ ipify.IPify.__init__ timeout verbose = ipify.IPify.mk (default 10 timeout).
Proof.
  rewrite get_a_record_run, update_a_record_self, get_current_ip_run.
  split; [reflexivity|]. split; [reflexivity|]. split; [reflexivity|].
  split; [|split; reflexivity].
  destruct (reads_run args schedule net g sent) as (fr & fc & Hreads).
  rewrite (reconcile_after_reads args schedule net g sent (fr, fc))
    by (rewrite Hreads; reflexivity).
  unfold updater.compare_and_update, concurrent_futures.future_result, lift,
    mbind, exec_bind, bind, mret, exec_ret, ret.
  cbn [fst snd result self_after sent_after].
  destruct fr as [record|e]; cbn [result self_after sent_after]; [|reflexivity].
  destruct fc as [current|e]; cbn [result self_after sent_after]; [|reflexivity].
  destruct (negb _); [|reflexivity].
  rewrite on_porkbun_update_a_record. reflexivity.
Qed.

(** ** The order in which the two reads reach the network *)

Section Schedules.
Import ipify porkbun updater concurrent_futures.
Variable args : Args.
Variable net : Network.
Variable g : Globals.
Variable sent : list Request.
Hypothesis net_stateless : stateless net.

Lemma get_a_record_stateless (self : PorkBun.t) (history : list Request) :
  result (PorkBun.get_a_record (domain args) net self history)
  = result (PorkBun.get_a_record (domain args) net self []).
Proof. rewrite !get_a_record_run. cbn [result]. rewrite (net_stateless history). reflexivity. Qed.

Lemma get_current_ip_stateless (self : IPify.t) (history : list Request) :
  result (IPify.get_current_ip net self history)
  = result (IPify.get_current_ip net self []).
Proof. rewrite !get_current_ip_run. cbn [result]. rewrite (net_stateless history). reflexivity. Qed.

Lemma update_a_record_stateless (self : PorkBun.t) (ip : string) (ttl : option Z)
    (history : list Request) :
  result (PorkBun.update_a_record (domain args) ip ttl net self history)
  = result (PorkBun.update_a_record (domain args) ip ttl net self []).
Proof.
  rewrite !update_a_record_run. destruct (builtins.str (default 600 ttl));
    cbn [result]; [rewrite (net_stateless history)|]; reflexivity.
Qed.

(** The futures of the two reads are the same under both schedules. *)
Lemma reads_futures (schedule : Schedule) :
  result (reads args schedule net g sent)
  = Ok (result (PorkBun.get_a_record (domain args) net (porkbun_connector g) []),
        result (IPify.get_current_ip net (ipify_connector g) [])).
Proof.
  unfold reads, submit_two, run_task, mbind, exec_bind, bind, mret, exec_ret, ret.
  destruct schedule.
  - rewrite on_porkbun_get_a_record. cbn [result self_after sent_after].
    rewrite on_ipify_get_current_ip. cbn [result self_after sent_after].
    rewrite get_a_record_stateless, get_current_ip_stateless. reflexivity.
  - rewrite on_ipify_get_current_ip. cbn [result self_after sent_after].
    rewrite on_porkbun_get_a_record. cbn [result self_after sent_after].
    rewrite get_a_record_stateless, get_current_ip_stateless. reflexivity.
Qed.

Lemma compare_and_update_stateless
    (futures : Result ARecord.t * Result IP.t) (history : list Request) :
  result (compare_and_update args futures net g history)
  = result (compare_and_update args futures net g [])
  ∧ update_calls (sent_after (compare_and_update args futures net g history))
    = update_calls history
      ++ update_calls (sent_after (compare_and_update args futures net g [])).
Proof.
  unfold compare_and_update, future_result, lift, mbind, exec_bind, bind, mret,
    exec_ret, ret.
  destruct futures as [[record|e] [current|e']];
    cbn [fst snd result self_after sent_after];
    try (split; [reflexivity | symmetry; apply app_nil_r]).
  destruct (negb _); [|split; [reflexivity | symmetry; apply app_nil_r]].
  rewrite !on_porkbun_update_a_record. cbn [result sent_after].
  split; [apply update_a_record_stateless|].
  rewrite !update_a_record_run. unfold update_calls.
  destruct (builtins.str (default 600 (Some (ttl args)))); cbn [sent_after].
  - rewrite List.filter_app. reflexivity.
  - symmetry. apply app_nil_r.
Qed.

(** X15.  With services that answer each request on its own, a pass ends
    the same way and issues the same update calls, whichever read arrives
    first. *)
Lemma schedule_irrelevant (s1 s2 : Schedule) :
  result (reconcile args s1 net g sent) = result (reconcile args s2 net g sent)
  ∧ update_calls (sent_after (reconcile args s1 net g sent))
    = update_calls (sent_after (reconcile args s2 net g sent)).
Proof.
  rewrite (reconcile_after_reads args s1 net g sent _ (reads_futures s1)).
  rewrite (reconcile_after_reads args s2 net g sent _ (reads_futures s2)).
  set (futures := (_, _)).
  destruct (compare_and_update_stateless futures
              (sent_after (reads args s1 net g sent))) as [Hr1 Hc1].
  destruct (compare_and_update_stateless futures
              (sent_after (reads args s2 net g sent))) as [Hr2 Hc2].
  rewrite Hr1, Hr2, Hc1, Hc2, !reads_no_update_call. auto.
Qed.

End Schedules.

(** * Further properties of the code *)

(** ** The requests of a pass *)

Section PassRequests.
Import ipify porkbun updater concurrent_futures.
Variable args : Args.
Variable schedule : Schedule.
Variable net : Network.
Variable g : Globals.
Variable sent : list Request.

Lemma reads_sent :
  sent_after (reads args schedule net g sent)
  = sent ++ read_requests schedule g (domain args).
Proof.
  destruct (reads_run args schedule net g sent) as (fr & fc & ->).
  destruct schedule; reflexivity.
Qed.

(** What follows the reads sends nothing or one edit request. *)
Lemma compare_and_update_sent (futures : Result ARecord.t * Result IP.t)
    (history : list Request) :
  sent_after (compare_and_update args futures net g history) = history
  ∨ ∃ current,
      snd futures = Ok current
      ∧ sent_after (compare_and_update args futures net g history)
        = history ++ [edit_request (porkbun_connector g) (domain args)
                        (IP.ip current) (ttl args)].
Proof.
  unfold compare_and_update, future_result, lift, mbind, exec_bind, bind, mret,
    exec_ret, ret.
  destruct futures as [[record|e] [current|e']];
    cbn [fst snd result self_after sent_after]; try (left; reflexivity).
  destruct (negb _); [|left; reflexivity].
  rewrite on_porkbun_update_a_record, update_a_record_run. cbn [sent_after].
  destruct (builtins.str (default 600 (Some (ttl args)))); cbn [sent_after];
    [right; exists current; auto | left; reflexivity].
Qed.

Lemma reconcile_sent :
  ∃ tail,
    sent_after (reconcile args schedule net g sent)
    = sent ++ read_requests schedule g (domain args) ++ tail
    ∧ (tail = []
       ∨ ∃ ip, tail = [edit_request (porkbun_connector g) (domain args) ip (ttl args)]).
Proof.
  destruct (reads_run args schedule net g sent) as (fr & fc & Hreads).
  rewrite (reconcile_after_reads args schedule net g sent (fr, fc))
    by (rewrite Hreads; reflexivity).
  rewrite reads_sent.
  destruct (compare_and_update_sent (fr, fc)
              (sent ++ read_requests schedule g (domain args)))
    as [->|(current & _ & ->)].
  - exists []. rewrite app_nil_r. auto.
  - exists [edit_request (porkbun_connector g) (domain args) (IP.ip current) (ttl args)].
    rewrite <- app_assoc. eauto.
Qed.

End PassRequests.

(** X1.  Whatever the network answers, a pass sends the two read requests,
    both of them also when one of the reads fails, and after them nothing
    or one request to the edit endpoint: never a second update, never a
    repeated read. *)
Theorem pass_sends_two_reads_and_at_most_one_update
    (args : updater.Args) (schedule : concurrent_futures.Schedule)
    (net : Network) (g : updater.Globals) (sent : list Request) :
  let pass := updater.reconcile args schedule net g sent in
  let reads := read_requests schedule g (updater.domain args) in
  (sent_after pass = sent ++ reads
   ∨ ∃ ip, sent_after pass
           = sent ++ reads
             ++ [edit_request (updater.porkbun_connector g) (updater.domain args)
                   ip (updater.ttl args)])
  ∧ (length (updater.update_calls (sent_after pass))
     ≤ length (updater.update_calls sent) + 1)%nat
  ∧ (length sent + 2 ≤ length (sent_after pass) ≤ length sent + 3)%nat.
Proof.
  intros pass reads. unfold pass, reads.
  destruct (reconcile_sent args schedule net g sent) as (tail & Hsent & Htail).
  assert (Hreads : length (read_requests schedule g (updater.domain args)) = 2%nat)
    by (destruct schedule; reflexivity).
  assert (Hnone : updater.update_calls (read_requests schedule g (updater.domain args)) = []).
  { unfold updater.update_calls.
    destruct schedule; cbn [read_requests List.filter];
      rewrite retrieve_not_update, lookup_not_update; reflexivity. }
  rewrite Hsent. unfold updater.update_calls in *.
  rewrite !List.filter_app, Hnone, !length_app, Hreads.
  destruct Htail as [->|(ip & ->)].
  - rewrite app_nil_r. cbn [List.filter length app]. split; [left; reflexivity|lia].
  - cbn [List.filter]. rewrite edit_is_update. cbn [length app].
    split; [right; exists ip; reflexivity|lia].
Qed.

(** X2.  When the record read raised, the pass raises that exception,
    whatever the lookup did: [record_task.result()] is asked first. *)
Theorem record_failure_surfaces_first
    (args : updater.Args) (schedule : concurrent_futures.Schedule)
    (net : Network) (g : updater.Globals) (sent : list Request)
    (e : Exception) (current_task : Result ipify.IP.t) :
  result (updater.reads args schedule net g sent) = Ok (Raise e, current_task) →
  result (updater.reconcile args schedule net g sent) = Raise e.
Proof.
  intros Hreads. rewrite (reconcile_after_reads _ _ _ _ _ _ Hreads). reflexivity.
Qed.

(** X3.  When the two reads succeed with different IP strings, the pass
    ends as the one update call ends.  If [str] prints the configured TTL,
    the update request is sent once, also when it fails, and the pass
    raises the transport exception or the [HTTPError] of that request and
    returns normally otherwise; if [str] refuses the TTL, the pass raises
    [ValueError] and sends nothing after the reads. *)
Theorem update_outcome_is_pass_outcome
    (args : updater.Args) (schedule : concurrent_futures.Schedule)
    (net : Network) (g : updater.Globals) (sent : list Request)
    (record : porkbun.ARecord.t) (current : ipify.IP.t) :
  result (updater.reads args schedule net g sent) = Ok (Ok record, Ok current) →
  ipify.IP.ip current ≠ porkbun.ARecord.ip record →
  let after_reads := sent ++ read_requests schedule g (updater.domain args) in
  let update := edit_request (updater.porkbun_connector g) (updater.domain args)
                  (ipify.IP.ip current) (updater.ttl args) in
  let pass := updater.reconcile args schedule net g sent in
  match builtins.str (updater.ttl args) with
  | Some _ =>
      result pass = status_result (net after_reads update)
      ∧ sent_after pass = after_reads ++ [update]
  | None => result pass = Raise ValueError ∧ sent_after pass = after_reads
  end.
Proof.
  intros Hreads Hne after_reads update pass. unfold pass.
  rewrite (reconcile_after_reads _ _ _ _ _ _ Hreads).
  rewrite (compare_and_update_differ _ _ _ _ _ _ Hne).
  rewrite on_porkbun_update_a_record, update_a_record_run, reads_sent.
  change (default 600 (Some (updater.ttl args))) with (updater.ttl args).
  destruct (builtins.str (updater.ttl args)); split; reflexivity.
Qed.

(** ** What the requests of a run carry *)

Section RunRequests.
Import ipify porkbun updater concurrent_futures.

Lemma Forall_reconcile_sent (P : Request → Prop) (args : Args) (schedule : Schedule)
    (net : Network) (g : Globals) :
  P (retrieve_request (porkbun_connector g) (domain args)) →
  P (lookup_request (ipify_connector g)) →
  (∀ ip, P (edit_request (porkbun_connector g) (domain args) ip (ttl args))) →
  Forall P (sent_after (reconcile args schedule net g [])).
Proof.
  intros Hretrieve Hlookup Hedit.
  destruct (reconcile_sent args schedule net g []) as (tail & -> & Htail).
  cbn [app]. apply Forall_app. split.
  - destruct schedule; cbn [read_requests]; repeat constructor; assumption.
  - destruct Htail as [->|(ip & ->)]; repeat constructor. apply Hedit.
Qed.

End RunRequests.

(** X4.  Every request of a run of the script carries the timeout of the
    command line, 10 when the option is absent: the lookup, the record
    read and the update alike. *)
Theorem every_request_carries_the_timeout
    (argv : updater.CommandLine) (schedule : concurrent_futures.Schedule)
    (net : Network) (args : updater.Args) (run : Outcome updater.Globals unit) :
  updater.parse_args argv = Some args →
  updater.main argv schedule net = Some run →
  Forall (λ rq, req_timeout rq = updater.timeout args) (sent_after run)
  ∧ match updater.cl_timeout argv with
    | None => updater.timeout args = 10
    | Some text => builtins.int text = Some (updater.timeout args)
    end.
Proof.
  intros Hargs Hmain. unfold updater.main in Hmain. rewrite Hargs in Hmain.
  simpl in Hmain. injection Hmain as <-. split.
  - apply Forall_reconcile_sent; intros; reflexivity.
  - unfold updater.parse_args, updater.int_option in Hargs.
    destruct (updater.cl_ttl argv) as [t|]; simpl in Hargs;
      [destruct (builtins.int t); simpl in Hargs; [|discriminate]|];
      (destruct (updater.cl_timeout argv) as [text|]; simpl in Hargs;
       [destruct (builtins.int text); simpl in Hargs; [|discriminate]|]);
      injection Hargs as <-; reflexivity.
Qed.

(** X5.  In a run of the script the credentials go to the provider only:
    each request is either the GET to the lookup service, which has no
    body, or a POST to the provider's read or edit endpoint of the domain
    with the key and the secret of the command line. *)
Theorem credentials_go_to_the_provider_only
    (argv : updater.CommandLine) (schedule : concurrent_futures.Schedule)
    (net : Network) (run : Outcome updater.Globals unit) :
  updater.main argv schedule net = Some run →
  Forall (λ rq, is_lookup rq
                ∨ is_provider_call (updater.cl_domain argv) (updater.cl_api_key argv)
                    (updater.cl_api_secret argv) rq)
    (sent_after run).
Proof.
  intros Hmain. unfold updater.main in Hmain.
  destruct (updater.parse_args argv) as [args|] eqn:Hargs; [|discriminate].
  simpl in Hmain. injection Hmain as <-.
  assert (Hfields : updater.domain args = updater.cl_domain argv
                    ∧ updater.api_key args = updater.cl_api_key argv
                    ∧ updater.api_secret args = updater.cl_api_secret argv).
  { unfold updater.parse_args in Hargs.
    destruct (updater.int_option 600 (updater.cl_ttl argv)); [|discriminate].
    destruct (updater.int_option 10 (updater.cl_timeout argv)); [|discriminate].
    simpl in Hargs. injection Hargs as <-. auto. }
  destruct Hfields as (Hd & Hk & Hs).
  apply Forall_reconcile_sent.
  - right. unfold is_provider_call. rewrite <- Hd, <- Hk, <- Hs.
    split; [reflexivity|]. split; [left; reflexivity|]. split; reflexivity.
  - left. unfold is_lookup. auto.
  - intros ip. right. unfold is_provider_call. rewrite <- Hd, <- Hk, <- Hs.
    split; [reflexivity|]. split; [right; reflexivity|]. split; reflexivity.
Qed.

(** ** The record read: which answers it accepts *)

Section RecordRead.
Import porkbun.

Lemma str_field_raises (v : option json) (e : Exception) :
  pydantic.str_field v = Raise e → e = ValidationError.
Proof. destruct v as [[| | | | |]|]; simpl; congruence. Qed.

Lemma literal_field_raises (lit : string) (v : option json) (e : Exception) :
  pydantic.literal_field lit v = Raise e → e = ValidationError.
Proof.
  destruct v as [[| | |s| |]|]; simpl; try congruence.
  destruct (String.eqb s lit); congruence.
Qed.

Lemma validate_raises (j : json) (e : Exception) :
  DNSARecordModel.validate j = Raise e → e = ValidationError.
Proof.
  destruct j as [| | | | |fields]; simpl; try congruence.
  destruct (pydantic.str_field (fields !! "name")) eqn:H1; simpl;
    [|intros [= <-]; apply (str_field_raises _ _ H1)].
  destruct (pydantic.literal_field "A" (fields !! "type")) eqn:H2; simpl;
    [|intros [= <-]; apply (literal_field_raises _ _ _ H2)].
  destruct (pydantic.str_field (fields !! "content")) eqn:H3; simpl;
    [|intros [= <-]; apply (str_field_raises _ _ H3)].
  destruct (pydantic.str_field (fields !! "ttl")) eqn:H4; simpl;
    [discriminate|intros [= <-]; apply (str_field_raises _ _ H4)].
Qed.

Lemma result_map_list_raises {A B} (f : A → Result B) (l : list A) (e : Exception) :
  result_map_list f l = Raise e → ∃ x e', x ∈ l ∧ f x = Raise e' ∧ e = e'.
Proof.
  induction l as [|x rest IH]; simpl; [discriminate|].
  destruct (f x) as [y|e'] eqn:Hx; simpl.
  - destruct (result_map_list f rest) as [ys|e'']; simpl; [discriminate|].
    intros [= <-]. destruct (IH eq_refl) as (x' & e' & Hin & Hf & ->).
    exists x', e'. split; [right; assumption | auto].
  - intros [= <-]. exists x, e'. split; [left | auto].
Qed.

Lemma result_map_list_bad {A B} (f : A → Result B) (l : list A) (x : A) :
  x ∈ l → is_ok (f x) = false → is_ok (result_map_list f l) = false.
Proof.
  induction 1 as [x rest|x y rest Hin IH]; simpl; intros Hbad.
  - destruct (f x); [discriminate|reflexivity].
  - destruct (f y); [|reflexivity]. simpl.
    destruct (result_map_list f rest); [|reflexivity].
    discriminate (IH Hbad).
Qed.

(** Validation of the body raises nothing but [ValidationError]. *)
Lemma model_validate_json_raises (body : option json) (e : Exception) :
  DNSARecordResponseModel.model_validate_json body = Raise e → e = ValidationError.
Proof.
  unfold DNSARecordResponseModel.model_validate_json.
  destruct body as [[| | | | |fields]|]; try congruence.
  destruct (pydantic.literal_field "SUCCESS" (fields !! "status")) eqn:H1; simpl;
    [|intros [= <-]; apply (literal_field_raises _ _ _ H1)].
  destruct (fields !! "records") as [[| | | |items|]|]; simpl; try congruence.
  destruct (result_map_list DNSARecordModel.validate items) eqn:H2; simpl;
    [discriminate|].
  intros [= <-]. apply result_map_list_raises in H2.
  destruct H2 as (x & e' & _ & Hx & ->). apply (validate_raises _ _ Hx).
Qed.

End RecordRead.

(** X7.  An answer with status SUCCESS and one or more valid records is
    accepted whatever their number, and [get_a_record] returns the content
    and the TTL of the first record; the records after it do not change
    the result. *)
Theorem get_a_record_returns_the_first_of_many
    (net : Network) (sent : list Request) (self : porkbun.PorkBun.t)
    (domain : string) (response : Response) (fields : gmap string json)
    (item : json) (more : list json)
    (first : porkbun.DNSARecordModel.t) (rest : list porkbun.DNSARecordModel.t)
    (n : Z) :
  net sent (retrieve_request self domain) = Replied response →
  http_failure (status_code response) = false →
  content response = Some (JObj fields) →
  fields !! "status" = Some (JStr "SUCCESS") →
  fields !! "records" = Some (JArr (item :: more)) →
  porkbun.DNSARecordModel.validate item = Ok first →
  result_map_list porkbun.DNSARecordModel.validate more = Ok rest →
  builtins.int (porkbun.DNSARecordModel.ttl first) = Some n →
  result (porkbun.PorkBun.get_a_record domain net self sent)
  = Ok (porkbun.ARecord.mk (porkbun.DNSARecordModel.content first) n).
Proof.
  intros Hnet Hstatus Hbody Hs Hr Hitem Hmore Hint.
  rewrite get_a_record_run. cbn [result]. rewrite Hnet, Hstatus, Hbody.
  rewrite (model_validate_json_records fields (item :: more) (first :: rest) Hs Hr)
    by (cbn [result_map_list]; rewrite Hitem, Hmore; reflexivity).
  unfold a_record_of. cbn. rewrite Hint. reflexivity.
Qed.

(** X8.  An answer with status SUCCESS and an empty list of records
    passes validation, and [get_a_record] raises [IndexError] when it
    takes the first record. *)
Theorem get_a_record_without_records_raises_index_error
    (net : Network) (sent : list Request) (self : porkbun.PorkBun.t)
    (domain : string) (response : Response) (fields : gmap string json) :
  net sent (retrieve_request self domain) = Replied response →
  http_failure (status_code response) = false →
  content response = Some (JObj fields) →
  fields !! "status" = Some (JStr "SUCCESS") →
  fields !! "records" = Some (JArr []) →
  porkbun.DNSARecordResponseModel.model_validate_json (content response)
  = Ok (porkbun.DNSARecordResponseModel.mk "SUCCESS" [])
  ∧ result (porkbun.PorkBun.get_a_record domain net self sent) = Raise IndexError.
Proof.
  intros Hnet Hstatus Hbody Hs Hr.
  assert (Hvalid := model_validate_json_records fields [] [] Hs Hr eq_refl).
  rewrite Hbody. split; [exact Hvalid|].
  rewrite get_a_record_run. cbn [result]. rewrite Hnet, Hstatus, Hbody, Hvalid.
  reflexivity.
Qed.

(** X9.  One record that does not fit the record model, at any place of
    the list, makes [get_a_record] raise [ValidationError], also when the
    first record is a valid one. *)
Theorem get_a_record_rejects_an_invalid_record_anywhere
    (net : Network) (sent : list Request) (self : porkbun.PorkBun.t)
    (domain : string) (response : Response) (fields : gmap string json)
    (items : list json) (bad : json) :
  net sent (retrieve_request self domain) = Replied response →
  http_failure (status_code response) = false →
  content response = Some (JObj fields) →
  fields !! "records" = Some (JArr items) →
  bad ∈ items →
  is_ok (porkbun.DNSARecordModel.validate bad) = false →
  result (porkbun.PorkBun.get_a_record domain net self sent) = Raise ValidationError.
Proof.
  intros Hnet Hstatus Hbody Hr Hin Hbad.
  rewrite get_a_record_run. cbn [result]. rewrite Hnet, Hstatus, Hbody.
  destruct (porkbun.DNSARecordResponseModel.model_validate_json (Some (JObj fields)))
    as [parsed|e] eqn:Hv.
  - exfalso. unfold porkbun.DNSARecordResponseModel.model_validate_json in Hv.
    rewrite Hr in Hv.
    destruct (pydantic.literal_field "SUCCESS" (fields !! "status")); simpl in Hv;
      [|discriminate].
    pose proof (result_map_list_bad _ _ _ Hin Hbad) as Hlist.
    destruct (result_map_list porkbun.DNSARecordModel.validate items);
      [discriminate Hlist | discriminate Hv].
  - rewrite (model_validate_json_raises _ _ Hv). reflexivity.
Qed.

(** X10.  A failure status decides the record read before the body is
    looked at: with a 4xx or 5xx status [get_a_record] raises [HTTPError]
    with that status, whatever the body holds. *)
Theorem get_a_record_checks_the_status_first
    (net : Network) (sent : list Request) (self : porkbun.PorkBun.t)
    (domain : string) (response : Response) :
  net sent (retrieve_request self domain) = Replied response →
  http_failure (status_code response) = true →
  result (porkbun.PorkBun.get_a_record domain net self sent)
  = Raise (HTTPError (status_code response))
  ∧ 400 <= status_code response < 600.
Proof.
  intros Hnet Hstatus. rewrite get_a_record_run. cbn [result].
  rewrite Hnet, Hstatus. split; [reflexivity|]. unfold http_failure in Hstatus. lia.
Qed.

(** X11.  With a passing HTTP status, a body that is not a JSON object
    whose [status] is the string SUCCESS makes [get_a_record] raise
    [ValidationError], whatever records it lists. *)
Theorem get_a_record_requires_the_success_status
    (net : Network) (sent : list Request) (self : porkbun.PorkBun.t)
    (domain : string) (response : Response) :
  net sent (retrieve_request self domain) = Replied response →
  http_failure (status_code response) = false →
  (∀ fields, content response = Some (JObj fields) →
             fields !! "status" ≠ Some (JStr "SUCCESS")) →
  result (porkbun.PorkBun.get_a_record domain net self sent) = Raise ValidationError.
Proof.
  intros Hnet Hstatus Hbody. rewrite get_a_record_run. cbn [result].
  rewrite Hnet, Hstatus.
  unfold porkbun.DNSARecordResponseModel.model_validate_json.
  destruct (content response) as [[| | | | |fields]|]; try reflexivity.
  specialize (Hbody fields eq_refl).
  destruct (fields !! "status") as [[| | |s| |]|]; try reflexivity.
  simpl. destruct (String.eqb_spec s "SUCCESS") as [->|_]; [congruence|reflexivity].
Qed.

(** ** The lookup: what it raises and what it ignores *)

(** X14.  The two models read their own fields only: a key of the body
    that is not [ip] does not change what the lookup model makes of it,
    and a key of a record that is none of [name], [type], [content] and
    [ttl] does not change what the record model makes of it. *)
Theorem models_ignore_other_fields
    (fields : gmap string json) (key : string) (value : json) :
  (key ≠ "ip" →
   ipify.IPifyResponseModel.model_validate_json (Some (JObj (<[key:=value]> fields)))
   = ipify.IPifyResponseModel.model_validate_json (Some (JObj fields)))
  ∧ (key ≠ "name" → key ≠ "type" → key ≠ "content" → key ≠ "ttl" →
     porkbun.DNSARecordModel.validate (JObj (<[key:=value]> fields))
     = porkbun.DNSARecordModel.validate (JObj fields)).
Proof.
  split.
  - intros Hip. unfold ipify.IPifyResponseModel.model_validate_json.
    rewrite lookup_insert_ne by assumption. reflexivity.
  - intros Hn Ht Hc Hl. unfold porkbun.DNSARecordModel.validate.
    rewrite !lookup_insert_ne by assumption. reflexivity.
Qed.

(** ** The order of the reads, on an example *)

(** ** The update request and the call it comes from *)

Lemma edit_request_inj
    (self self' : porkbun.PorkBun.t) (domain domain' ip ip' : string) (ttl ttl' : Z) :
  edit_request self domain ip ttl = edit_request self' domain' ip' ttl' →
  ip = ip' ∧ ttl = ttl' ∧ self = self'.
Proof.
  intros Heq.
  pose proof (f_equal (λ rq, request_field rq "content") Heq) as Hip.
  pose proof (f_equal (λ rq, request_field rq "ttl") Heq) as Httl.
  pose proof (f_equal (λ rq, request_field rq "apikey") Heq) as Hkey.
  pose proof (f_equal (λ rq, request_field rq "secretapikey") Heq) as Hsecret.
  pose proof (f_equal req_timeout Heq) as Htimeout.
  change (Some (JStr ip) = Some (JStr ip')) in Hip.
  change (Some (JStr (builtins.decimal ttl)) = Some (JStr (builtins.decimal ttl')))
    in Httl.
  change (Some (JStr (porkbun.PorkBun.api_key self))
          = Some (JStr (porkbun.PorkBun.api_key self'))) in Hkey.
  change (Some (JStr (porkbun.PorkBun.api_secret self))
          = Some (JStr (porkbun.PorkBun.api_secret self'))) in Hsecret.
  change (porkbun.PorkBun.timeout self = porkbun.PorkBun.timeout self') in Htimeout.
  injection Hip as ->. injection Httl as Httl. apply decimal_inj in Httl.
  injection Hkey as Hkey. injection Hsecret as Hsecret.
  destruct self, self'. cbn in Hkey, Hsecret, Htimeout. subst. auto.
Qed.

(** X16.  The request [update_a_record] sends tells the call apart: two
    calls, on any networks and after any requests, whose TTLs [str]
    prints and which send the same request, were given the same IP string
    and the same TTL (600 standing for an omitted one), by clients with
    the same credentials and timeout. *)
Theorem update_request_determines_the_call
    (net net' : Network) (sent sent' : list Request)
    (self self' : porkbun.PorkBun.t) (domain domain' ip ip' : string)
    (ttl ttl' : option Z) :
  builtins.printable (default 600 ttl) →
  builtins.printable (default 600 ttl') →
  last (sent_after (porkbun.PorkBun.update_a_record domain ip ttl net self sent))
  = last (sent_after (porkbun.PorkBun.update_a_record domain' ip' ttl' net' self' sent')) →
  ip = ip' ∧ default 600 ttl = default 600 ttl' ∧ self = self'.
Proof.
  intros Hp Hp'.
  rewrite (update_a_record_printable _ _ _ _ _ ttl Hp).
  rewrite (update_a_record_printable _ _ _ _ _ ttl' Hp').
  cbn [sent_after]. rewrite !last_snoc. intros Heq. apply (inj Some) in Heq.
  apply (edit_request_inj _ _ _ _ _ _ _ _ Heq).
Qed.

(** ** Integer texts with blanks around them *)

Lemma lstrip_blanks (l t : string) :
  builtins.all_space l = true → builtins.lstrip (l +:+ t) = builtins.lstrip t.
Proof.
  induction l as [|a l IH]; intros Hl; [reflexivity|].
  simpl in Hl. apply andb_true_iff in Hl as [Ha Hl].
  change (builtins.lstrip (String a (l +:+ t)) = builtins.lstrip t).
  simpl. rewrite Ha. apply IH, Hl.
Qed.

(** X17.  Blanks around an integer text do not matter to [int]: the text
    of [--ttl], of [--timeout] and of a record's TTL is read as [n] when
    it is the numeral of [n], of at most 4300 digits, between any two
    runs of the blanks of codes 9-13 and 32. *)
Theorem int_skips_surrounding_blanks (n : Z) (before after : string) :
  builtins.printable n →
  builtins.all_space before = true →
  builtins.all_space after = true →
  builtins.int (before +:+ builtins.decimal n +:+ after) = Some n.
Proof.
  intros Hn Hb Ha.
  rewrite int_ascii_text
    by (repeat apply ascii_text_app;
        auto using ascii_text_blanks, ascii_text_decimal).
  rewrite <- (int_ascii_decimal n after Hn Ha).
  unfold builtins.int_ascii. rewrite (lstrip_blanks _ _ Hb). reflexivity.
Qed.

End Interpreter.

(** * Example runs

    Each statement above that has a premise is used once on a concrete
    run. *)

#[global] Existing Instance example.tables.

(** The second scenario of the specification: the record holds 1.2.3.4,
    the lookup reports 5.6.7.8, no TTL on the command line. *)
Lemma mismatch_issues_one_update_witness :
  updater.update_calls
    (sent_after
       (updater.reconcile example.args concurrent_futures.SecondSubmittedFirst
          (example.network
             (example.ok (example.record_body [example.a_record "1.2.3.4" "300"]))
             (example.ok (example.ip_body "5.6.7.8")))
          (updater.connectors example.args) []))
  = [edit_request (updater.porkbun_connector (updater.connectors example.args))
       "example.com" "5.6.7.8" 600].
Proof.
  apply (mismatch_issues_one_update example.argv example.args
           concurrent_futures.SecondSubmittedFirst
           (example.network
              (example.ok (example.record_body [example.a_record "1.2.3.4" "300"]))
              (example.ok (example.ip_body "5.6.7.8")))
           (updater.connectors example.args) []
           (porkbun.ARecord.mk "1.2.3.4" 300) (ipify.IP.mk "5.6.7.8")).
  - reflexivity.
  - vm_compute. reflexivity.
  - simpl. discriminate.
Defined.

(** The first scenario of the specification: record and lookup both
    report 1.2.3.4. *)
Lemma equal_ips_issue_no_update_witness :
  let pass :=
    updater.reconcile example.args concurrent_futures.FirstSubmittedFirst
      (example.network
         (example.ok (example.record_body [example.a_record "1.2.3.4" "600"]))
         (example.ok (example.ip_body "1.2.3.4")))
      (updater.connectors example.args) [] in
  result pass = Ok tt ∧ updater.update_calls (sent_after pass) = [].
Proof.
  destruct (equal_ips_issue_no_update example.args
              concurrent_futures.FirstSubmittedFirst
              (example.network
                 (example.ok (example.record_body [example.a_record "1.2.3.4" "600"]))
                 (example.ok (example.ip_body "1.2.3.4")))
              (updater.connectors example.args) []
              (porkbun.ARecord.mk "1.2.3.4" 600) (ipify.IP.mk "1.2.3.4"))
    as (Hres & _ & Hcalls).
  - vm_compute. reflexivity.
  - reflexivity.
  - split; [exact Hres | exact Hcalls].
Defined.

(** The record read succeeds and differs from the machine's address, but
    the lookup service answers 503. *)
Lemma failed_read_fails_pass_witness :
  let pass :=
    updater.reconcile example.args concurrent_futures.FirstSubmittedFirst
      (example.network
         (example.ok (example.record_body [example.a_record "1.2.3.4" "600"]))
         (Replied (mkResponse 503 None)))
      (updater.connectors example.args) [] in
  (∃ e, result pass = Raise e
        ∧ (Ok (porkbun.ARecord.mk "1.2.3.4" 600) = Raise e
           ∨ (Raise (HTTPError 503) : Result ipify.IP.t) = Raise e))
  ∧ updater.update_calls (sent_after pass) = [].
Proof.
  destruct (failed_read_fails_pass example.args
              concurrent_futures.FirstSubmittedFirst
              (example.network
                 (example.ok (example.record_body [example.a_record "1.2.3.4" "600"]))
                 (Replied (mkResponse 503 None)))
              (updater.connectors example.args) []
              (Ok (porkbun.ARecord.mk "1.2.3.4" 600)) (Raise (HTTPError 503)))
    as (Hres & _ & Hcalls).
  - vm_compute. reflexivity.
  - reflexivity.
  - split; [exact Hres | exact Hcalls].
Defined.


(** The provider answers with the TTL "ten minutes". *)
Lemma malformed_ttl_fails_at_conversion_witness :
  result (porkbun.PorkBun.get_a_record "example.com"
            (example.network
               (example.ok (example.record_body
                  [example.a_record "1.2.3.4" "ten minutes"]))
               (example.ok (example.ip_body "5.6.7.8")))
            (porkbun.PorkBun.mk 10 "key" "secret") [])
  = Raise ValueError.
Proof.
  apply (malformed_ttl_fails_at_conversion
           (example.network
              (example.ok (example.record_body
                 [example.a_record "1.2.3.4" "ten minutes"]))
              (example.ok (example.ip_body "5.6.7.8")))
           [] (porkbun.PorkBun.mk 10 "key" "secret") "example.com"
           (mkResponse 200
              (Some (example.record_body [example.a_record "1.2.3.4" "ten minutes"])))
           {[ "status" := JStr "SUCCESS";
              "records" := JArr [example.a_record "1.2.3.4" "ten minutes"] ]}
           {[ "name" := JStr "example.com"; "type" := JStr "A";
              "content" := JStr "1.2.3.4"; "ttl" := JStr "ten minutes" ]}
           [] [] "example.com" "1.2.3.4" "ten minutes");
    reflexivity.
Defined.

(** The service reports a text that is no IP address at all. *)
Lemma get_current_ip_returns_reported_ip_witness :
  result (ipify.IPify.get_current_ip
            (example.network (NoReply TimedOut) (example.ok (example.ip_body "::ffff:01.2.3.4 ")))
            (ipify.IPify.mk 10) [])
  = Ok (ipify.IP.mk "::ffff:01.2.3.4 ").
Proof.
  destruct (get_current_ip_returns_reported_ip
              (example.network (NoReply TimedOut)
                 (example.ok (example.ip_body "::ffff:01.2.3.4 ")))
              [] (ipify.IPify.mk 10)) as (_ & Hsame & _).
  apply (Hsame (mkResponse 200 (Some (example.ip_body "::ffff:01.2.3.4 ")))
           {[ "ip" := JStr "::ffff:01.2.3.4 " ]} "::ffff:01.2.3.4 ");
    reflexivity.
Defined.

(** The provider answers 200 once with a body that is not JSON and once
    with an error document: both updates return normally. *)
Lemma update_a_record_status_only_witness :
  let self := porkbun.PorkBun.mk 10 "key" "secret" in
  result (porkbun.PorkBun.update_a_record "example.com" "5.6.7.8" None
            (λ _ _, Replied (mkResponse 200 None)) self [])
  = Ok tt
  ∧ result (porkbun.PorkBun.update_a_record "example.com" "5.6.7.8" None
              (λ _ _, Replied (mkResponse 200
                 (Some (JObj {[ "status" := JStr "ERROR" ]})))) self [])
    = result (porkbun.PorkBun.update_a_record "example.com" "5.6.7.8" None
                (λ _ _, Replied (mkResponse 200 None)) self []).
Proof.
  destruct (update_a_record_status_only
              (λ _ _, Replied (mkResponse 200 None))
              (λ _ _, Replied (mkResponse 200
                 (Some (JObj {[ "status" := JStr "ERROR" ]}))))
              [] (porkbun.PorkBun.mk 10 "key" "secret") "example.com" "5.6.7.8" None)
    as (_ & Hres & Hsame & _).
  - vm_compute. reflexivity.
  - split.
    + apply (Hres (mkResponse 200 None)). reflexivity.
    + apply (Hsame (mkResponse 200 None)
               (mkResponse 200 (Some (JObj {[ "status" := JStr "ERROR" ]}))));
        reflexivity.
Defined.

(** The provider answers 500 and the lookup times out: the pass reports
    the provider's failure. *)
Lemma record_failure_surfaces_first_witness :
  result (updater.reconcile example.args concurrent_futures.SecondSubmittedFirst
            (example.network (Replied (mkResponse 500 None)) (NoReply TimedOut))
            (updater.connectors example.args) [])
  = Raise (HTTPError 500).
Proof.
  apply (record_failure_surfaces_first example.args
           concurrent_futures.SecondSubmittedFirst
           (example.network (Replied (mkResponse 500 None)) (NoReply TimedOut))
           (updater.connectors example.args) [] (HTTPError 500) (Raise Timeout)).
  vm_compute. reflexivity.
Defined.

(** The provider accepts the read and refuses the update with 403. *)
Lemma update_outcome_is_pass_outcome_witness :
  let net : Network :=
    λ _ rq, if updater.is_update_call rq then Replied (mkResponse 403 None)
            else example.network
                   (example.ok (example.record_body [example.a_record "1.2.3.4" "600"]))
                   (example.ok (example.ip_body "5.6.7.8")) [] rq in
  let pass := updater.reconcile example.args concurrent_futures.FirstSubmittedFirst
                net (updater.connectors example.args) [] in
  result pass = Raise (HTTPError 403)
  ∧ length (updater.update_calls (sent_after pass)) = 1%nat.
Proof.
  intros net pass.
  destruct (update_outcome_is_pass_outcome example.args
              concurrent_futures.FirstSubmittedFirst net
              (updater.connectors example.args) []
              (porkbun.ARecord.mk "1.2.3.4" 600) (ipify.IP.mk "5.6.7.8"))
    as (Hres & Hsent).
  - vm_compute. reflexivity.
  - simpl. discriminate.
  - fold pass in Hres, Hsent. split.
    + rewrite Hres. vm_compute. reflexivity.
    + rewrite Hsent. vm_compute. reflexivity.
Defined.

(** A run with [--timeout 3]. *)
Lemma every_request_carries_the_timeout_witness :
  Forall (λ rq, req_timeout rq = 3)
    (sent_after
       (updater.reconcile (updater.mkArgs "example.com" "key" "secret" 600 3 false)
          concurrent_futures.FirstSubmittedFirst
          (example.network
             (example.ok (example.record_body [example.a_record "1.2.3.4" "600"]))
             (example.ok (example.ip_body "5.6.7.8")))
          (updater.connectors (updater.mkArgs "example.com" "key" "secret" 600 3 false))
          [])).
Proof.
  apply (every_request_carries_the_timeout
           (updater.mkCommandLine "example.com" "key" "secret" None (Some "3") false)
           concurrent_futures.FirstSubmittedFirst
           (example.network
              (example.ok (example.record_body [example.a_record "1.2.3.4" "600"]))
              (example.ok (example.ip_body "5.6.7.8")))
           (updater.mkArgs "example.com" "key" "secret" 600 3 false)).
  - reflexivity.
  - reflexivity.
Defined.

(** The second scenario: three requests, the middle one to the lookup
    service. *)
Lemma credentials_go_to_the_provider_only_witness :
  Forall (λ rq, is_lookup rq ∨ is_provider_call "example.com" "key" "secret" rq)
    (sent_after
       (updater.reconcile example.args concurrent_futures.FirstSubmittedFirst
          (example.network
             (example.ok (example.record_body [example.a_record "1.2.3.4" "600"]))
             (example.ok (example.ip_body "5.6.7.8")))
          (updater.connectors example.args) [])).
Proof.
  apply (credentials_go_to_the_provider_only example.argv
           concurrent_futures.FirstSubmittedFirst
           (example.network
              (example.ok (example.record_body [example.a_record "1.2.3.4" "600"]))
              (example.ok (example.ip_body "5.6.7.8")))).
  reflexivity.
Defined.

(** Three records; the first one is returned. *)
Lemma get_a_record_returns_the_first_of_many_witness :
  result (porkbun.PorkBun.get_a_record "example.com"
            (example.network
               (example.ok (example.record_body
                  [example.a_record "1.2.3.4" "600"; example.a_record "9.9.9.9" "300";
                   example.a_record "8.8.8.8" "x"]))
               (NoReply ConnectionFailed))
            (porkbun.PorkBun.mk 10 "key" "secret") [])
  = Ok (porkbun.ARecord.mk "1.2.3.4" 600).
Proof.
  apply (get_a_record_returns_the_first_of_many
           (example.network
              (example.ok (example.record_body
                 [example.a_record "1.2.3.4" "600"; example.a_record "9.9.9.9" "300";
                  example.a_record "8.8.8.8" "x"]))
              (NoReply ConnectionFailed))
           [] (porkbun.PorkBun.mk 10 "key" "secret") "example.com"
           (mkResponse 200 (Some (example.record_body
              [example.a_record "1.2.3.4" "600"; example.a_record "9.9.9.9" "300";
               example.a_record "8.8.8.8" "x"])))
           {[ "status" := JStr "SUCCESS";
              "records" := JArr [example.a_record "1.2.3.4" "600";
                                 example.a_record "9.9.9.9" "300";
                                 example.a_record "8.8.8.8" "x"] ]}
           (example.a_record "1.2.3.4" "600")
           [example.a_record "9.9.9.9" "300"; example.a_record "8.8.8.8" "x"]
           (porkbun.DNSARecordModel.mk "example.com" "A" "1.2.3.4" "600")
           [porkbun.DNSARecordModel.mk "example.com" "A" "9.9.9.9" "300";
            porkbun.DNSARecordModel.mk "example.com" "A" "8.8.8.8" "x"]
           600);
    reflexivity.
Defined.

(** The provider knows no A record of the domain. *)
Lemma get_a_record_without_records_raises_index_error_witness :
  result (porkbun.PorkBun.get_a_record "example.com"
            (example.network (example.ok (example.record_body []))
               (example.ok (example.ip_body "5.6.7.8")))
            (porkbun.PorkBun.mk 10 "key" "secret") [])
  = Raise IndexError.
Proof.
  apply (get_a_record_without_records_raises_index_error
           (example.network (example.ok (example.record_body []))
              (example.ok (example.ip_body "5.6.7.8")))
           [] (porkbun.PorkBun.mk 10 "key" "secret") "example.com"
           (mkResponse 200 (Some (example.record_body [])))
           {[ "status" := JStr "SUCCESS"; "records" := JArr [] ]});
    reflexivity.
Defined.

(** A valid A record followed by a record of type AAAA. *)
Lemma get_a_record_rejects_an_invalid_record_anywhere_witness :
  result (porkbun.PorkBun.get_a_record "example.com"
            (example.network
               (example.ok (example.record_body
                  [example.a_record "1.2.3.4" "600";
                   JObj {[ "name" := JStr "example.com"; "type" := JStr "AAAA";
                           "content" := JStr "::1"; "ttl" := JStr "600" ]}]))
               (example.ok (example.ip_body "5.6.7.8")))
            (porkbun.PorkBun.mk 10 "key" "secret") [])
  = Raise ValidationError.
Proof.
  apply (get_a_record_rejects_an_invalid_record_anywhere
           (example.network
              (example.ok (example.record_body
                 [example.a_record "1.2.3.4" "600";
                  JObj {[ "name" := JStr "example.com"; "type" := JStr "AAAA";
                          "content" := JStr "::1"; "ttl" := JStr "600" ]}]))
              (example.ok (example.ip_body "5.6.7.8")))
           [] (porkbun.PorkBun.mk 10 "key" "secret") "example.com"
           (mkResponse 200 (Some (example.record_body
              [example.a_record "1.2.3.4" "600";
               JObj {[ "name" := JStr "example.com"; "type" := JStr "AAAA";
                       "content" := JStr "::1"; "ttl" := JStr "600" ]}])))
           {[ "status" := JStr "SUCCESS";
              "records" := JArr [example.a_record "1.2.3.4" "600";
                                 JObj {[ "name" := JStr "example.com";
                                         "type" := JStr "AAAA";
                                         "content" := JStr "::1";
                                         "ttl" := JStr "600" ]}] ]}
           [example.a_record "1.2.3.4" "600";
            JObj {[ "name" := JStr "example.com"; "type" := JStr "AAAA";
                    "content" := JStr "::1"; "ttl" := JStr "600" ]}]
           (JObj {[ "name" := JStr "example.com"; "type" := JStr "AAAA";
                    "content" := JStr "::1"; "ttl" := JStr "600" ]})).
  - reflexivity.
  - reflexivity.
  - reflexivity.
  - reflexivity.
  - right. left.
  - reflexivity.
Defined.

(** A 404 whose body would be a valid answer. *)
Lemma get_a_record_checks_the_status_first_witness :
  result (porkbun.PorkBun.get_a_record "example.com"
            (example.network
               (Replied (mkResponse 404
                  (Some (example.record_body [example.a_record "1.2.3.4" "600"]))))
               (example.ok (example.ip_body "5.6.7.8")))
            (porkbun.PorkBun.mk 10 "key" "secret") [])
  = Raise (HTTPError 404).
Proof.
  apply (get_a_record_checks_the_status_first
           (example.network
              (Replied (mkResponse 404
                 (Some (example.record_body [example.a_record "1.2.3.4" "600"]))))
              (example.ok (example.ip_body "5.6.7.8")))
           [] (porkbun.PorkBun.mk 10 "key" "secret") "example.com"
           (mkResponse 404
              (Some (example.record_body [example.a_record "1.2.3.4" "600"]))));
    reflexivity.
Defined.

(** The provider answers 200 with status ERROR and a well-formed record. *)
Lemma get_a_record_requires_the_success_status_witness :
  result (porkbun.PorkBun.get_a_record "example.com"
            (example.network
               (example.ok (JObj {[ "status" := JStr "ERROR";
                                    "records" := JArr [example.a_record "1.2.3.4" "600"] ]}))
               (example.ok (example.ip_body "5.6.7.8")))
            (porkbun.PorkBun.mk 10 "key" "secret") [])
  = Raise ValidationError.
Proof.
  apply (get_a_record_requires_the_success_status
           (example.network
              (example.ok (JObj {[ "status" := JStr "ERROR";
                                   "records" := JArr [example.a_record "1.2.3.4" "600"] ]}))
              (example.ok (example.ip_body "5.6.7.8")))
           [] (porkbun.PorkBun.mk 10 "key" "secret") "example.com"
           (mkResponse 200
              (Some (JObj {[ "status" := JStr "ERROR";
                             "records" := JArr [example.a_record "1.2.3.4" "600"] ]})))).
  - reflexivity.
  - reflexivity.
  - intros fields [= <-]. vm_compute. discriminate.
Defined.

(** A record as the provider sends it, with an [id] besides the four
    fields. *)
Lemma models_ignore_other_fields_witness :
  porkbun.DNSARecordModel.validate
    (JObj (<["id":=JStr "106926659"]>
             {[ "name" := JStr "example.com"; "type" := JStr "A";
                "content" := JStr "1.2.3.4"; "ttl" := JStr "600" ]}))
  = Ok (porkbun.DNSARecordModel.mk "example.com" "A" "1.2.3.4" "600").
Proof.
  destruct (models_ignore_other_fields
              {[ "name" := JStr "example.com"; "type" := JStr "A";
                 "content" := JStr "1.2.3.4"; "ttl" := JStr "600" ]}
              "id" (JStr "106926659")) as [_ Hrecord].
  rewrite Hrecord; [reflexivity | discriminate ..].
Defined.

(** The second scenario under both schedules. *)
Lemma schedule_irrelevant_witness :
  let net := example.network
               (example.ok (example.record_body [example.a_record "1.2.3.4" "600"]))
               (example.ok (example.ip_body "5.6.7.8")) in
  result (updater.reconcile example.args concurrent_futures.FirstSubmittedFirst net
            (updater.connectors example.args) [])
  = result (updater.reconcile example.args concurrent_futures.SecondSubmittedFirst net
              (updater.connectors example.args) [])
  ∧ updater.update_calls
      (sent_after (updater.reconcile example.args
                     concurrent_futures.FirstSubmittedFirst net
                     (updater.connectors example.args) []))
    = updater.update_calls
        (sent_after (updater.reconcile example.args
                       concurrent_futures.SecondSubmittedFirst net
                       (updater.connectors example.args) [])).
Proof.
  apply (schedule_irrelevant example.args
           (example.network
              (example.ok (example.record_body [example.a_record "1.2.3.4" "600"]))
              (example.ok (example.ip_body "5.6.7.8")))
           (updater.connectors example.args) []).
  intros history rq. reflexivity.
Defined.

(** A call without a TTL after nothing and a call with the TTL 600 after
    a lookup, on two networks: both send the same request. *)
Lemma update_request_determines_the_call_witness :
  "5.6.7.8" = "5.6.7.8" ∧ default 600 None = default 600 (Some 600)
  ∧ porkbun.PorkBun.mk 10 "key" "secret" = porkbun.PorkBun.mk 10 "key" "secret".
Proof.
  apply (update_request_determines_the_call
           (λ _ _, NoReply TimedOut) (λ _ _, Replied (mkResponse 200 None))
           [] [lookup_request (ipify.IPify.mk 10)]
           (porkbun.PorkBun.mk 10 "key" "secret") (porkbun.PorkBun.mk 10 "key" "secret")
           "example.com" "example.com" "5.6.7.8" "5.6.7.8" None (Some 600)).
  - vm_compute. reflexivity.
  - vm_compute. reflexivity.
  - reflexivity.
Defined.

(** A TTL text with a tab before and a newline after it. *)
Lemma int_skips_surrounding_blanks_witness :
  builtins.int (String "009" "" +:+ "600" +:+ String "010" "") = Some 600.
Proof.
  apply (int_skips_surrounding_blanks 600 (String "009" "") (String "010" "")).
  - vm_compute. reflexivity.
  - reflexivity.
  - reflexivity.
Defined.


(** * Where a claim of the specification does not hold *)


(** The update request is sent and no answer comes back in time: the call
    fails, and not by a failure status. *)
Lemma update_a_record_fails_after_sending_without_status :
  let self := porkbun.PorkBun.mk 10 "key" "secret" in
  let run := porkbun.PorkBun.update_a_record "example.com" "5.6.7.8" None
               (λ _ _, NoReply TimedOut) self [] in
  sent_after run = [edit_request self "example.com" "5.6.7.8" 600]
  ∧ result run = Raise Timeout
  ∧ ∀ code, result run ≠ Raise (HTTPError code).
Proof.
  intros self run.
  assert (Hrun := update_a_record_fails_without_answer
                    (λ _ _, NoReply TimedOut) [] self "example.com" "5.6.7.8"
                    TimedOut eq_refl).
  fold run in Hrun. rewrite Hrun. cbn [result sent_after transport_exception app].
  split; [reflexivity|]. split; [reflexivity|]. discriminate.
Qed.
